(** * interception_py: input actions and event loops over the interception driver

    A shallow embedding of [src/src/interception/inputs.py] and of the
    coordinate conversion used by the helper scripts ([src/_left_click.py],
    [src/_get_mouse.py], [src/_mouse_scrolling.py]).

    Effects are explicit: every operation is a state transformer that may
    return, raise a Python exception, or not return at all (a blocking
    [wait], or a [while True] loop that has not finished within the given
    number of iterations).  Console output of the loops is not modelled. *)

From Stdlib Require Import ZArith QArith Lia Bool Ascii.
From stdpp Require Import gmap strings list.

Local Open Scope Z_scope.

(** ** Device registry *)

Module DeviceRegistry.

(** Modelled from the spec: [Interception.is_keyboard] lives in
    [interception.py], which is not among the sources.  The spec gives the
    numbering convention: identifiers 1..10 are keyboards. *)
Definition is_keyboard (id : Z) : bool := (1 <=? id) && (id <=? 10).

(** Modelled from the spec: [Interception.is_mouse] (same absent file);
    identifiers 11..20 are mice. *)
Definition is_mouse (id : Z) : bool := (11 <=? id) && (id <=? 20).

(** Modelled from the spec: a device identifier is valid when it lies in
    the driver's range 1..20. *)
Definition is_valid (id : Z) : bool := (1 <=? id) && (id <=? 20).

End DeviceRegistry.

(** ** Coordinate conversion *)

Module Coordinates.

(** [int((0xFFFF * x) / screen_width)], [src/_left_click.py] lines 37-38
    (the same expression in [_get_mouse.py] and [_mouse_scrolling.py]).
    The division is taken exactly and [int()] truncates toward zero; the
    source divides in floating point, which gives the same integer for
    every pixel and dimension a 32-bit screen metric can hold. *)
Definition scale (point dimension : Z) : Z := Z.quot (0xFFFF * point) dimension.

Definition to_interception_coordinate (screen : Z * Z) (x y : Z) : Z * Z :=
  (scale x (fst screen), scale y (snd screen)).

(** The reference of the spec: Python's [round(n / d)] on the exact
    quotient, which rounds to the nearest integer and a tie to the even
    neighbour.  [d] is positive. *)
Definition round_ratio (n d : Z) : Z :=
  let q := n / d in
  let r := n mod d in
  if 2 * r <? d then q
  else if d <? 2 * r then q + 1
  else if Z.even q then q else q + 1.

Definition reference_coordinate (screen : Z * Z) (x y : Z) : Z * Z :=
  (round_ratio (65535 * x) (fst screen), round_ratio (65535 * y) (snd screen)).

End Coordinates.

(** ** Strokes, exceptions and the effect monad *)

(** Modelled from the spec: the stroke records of [strokes.py] (absent).
    Field order as the constructors are called in [inputs.py]:
    [KeyStroke(kcode, state, 0)] and
    [MouseStroke(state, flags, rolling, x, y, information)]. *)
Record KeyStroke := mkKeyStroke
  { code : Z; state : Z; information : Z }.

Record MouseStroke := mkMouseStroke
  { mstate : Z; flags : Z; rolling : Z; mx : Z; my : Z; minformation : Z }.

Inductive stroke :=
| Key (k : KeyStroke)
| Mouse (m : MouseStroke).

Inductive exn :=
| DriverNotFoundError
| UnknownKeyError (key : string)
| UnknownButtonError (button : string)
| KeyError (key : string)
| ValueError
| AttributeError
| InvalidDeviceError
| NoPendingStrokeError
| ContextClosedError
| OtherError (what : string).

Inductive outcome (A : Type) :=
| Ret (a : A)
| Raise (e : exn).
Arguments Ret {A} a.
Arguments Raise {A} e.

(** A computation over a state [S]: [None] when it does not return
    (blocked in the driver, or still looping when the fuel ran out). *)
Definition M (S A : Type) : Type := S -> option (outcome A * S).

Definition ret {S A} (a : A) : M S A := fun s => Some (Ret a, s).

Definition raise {S A} (e : exn) : M S A := fun s => Some (Raise e, s).

Definition bind {S A B} (m : M S A) (k : A -> M S B) : M S B :=
  fun s =>
    match m s with
    | Some (Ret a, s') => k a s'
    | Some (Raise e, s') => Some (Raise e, s')
    | None => None
    end.

Declare Scope act_scope.
Delimit Scope act_scope with act.
Notation "x <- m ;; k" := (bind m (fun x => k))
  (at level 100, m at next level, right associativity) : act_scope.
Notation "m ;; k" := (bind m (fun _ => k))
  (at level 100, right associativity) : act_scope.
Local Open Scope act_scope.

(** [try: body finally: fin].  The finaliser runs when the body returns
    and when it raises; an exception of the finaliser replaces the
    outcome of the body.  A body that never returns never reaches it. *)
Definition try_finally {S A} (body : M S A) (fin : M S unit) : M S A :=
  fun s =>
    match body s with
    | Some (o, s') =>
        match fin s' with
        | Some (Ret _, s'') => Some (o, s'')
        | Some (Raise e, s'') => Some (Raise e, s'')
        | None => None
        end
    | None => None
    end.

(** [for _ in range(n): body] *)
Fixpoint repeat_times {S} (n : nat) (body : M S unit) : M S unit :=
  match n with
  | O => ret tt
  | S n' => body ;; repeat_times n' body
  end.

Definition for_range {S} (n : Z) (body : M S unit) : M S unit :=
  repeat_times (Z.to_nat n) body.

(** [while True: body], where the body either returns from the function
    ([Some v]) or falls through to the next iteration ([None]). *)
Fixpoint while_true {S A} (fuel : nat) (body : M S (option A)) : M S A :=
  match fuel with
  | O => fun _ => None
  | S fuel' =>
      r <- body ;;
      match r with
      | Some v => ret v
      | None => while_true fuel' body
      end
  end.

(** [requires_driver], [inputs.py] lines 40-50. *)
Definition requires_driver {S A} (installed : bool) (func : M S A) : M S A :=
  if installed then func else raise DriverNotFoundError.

(** [str.lower()] on ASCII text: on the code points below 128 it maps
    A-Z to a-z and leaves every other one.  A name with other code
    points is outside this model ([str.lower()] folds some of them, one
    even into two code points); the theorems that depend on what a
    lowered name is ask for [ascii_text]. *)
Definition lower_ascii (c : ascii) : ascii :=
  let n := N_of_ascii c in
  if ((65 <=? n) && (n <=? 90))%N then ascii_of_N (n + 32) else c.

Fixpoint lower (s : string) : string :=
  match s with
  | EmptyString => EmptyString
  | String c rest => String (lower_ascii c) (lower rest)
  end.

(** Text whose code points are all below 128. *)
Definition is_ascii (c : ascii) : bool := (N_of_ascii c <? 128)%N.

Fixpoint ascii_text (s : string) : Prop :=
  match s with
  | EmptyString => True
  | String c rest => is_ascii c = true /\ ascii_text rest
  end.



(** ** What the module needs from the files that are not in [src/]

    The key table, the driver's constants and the helpers of [_utils]
    are taken as given.  Of the two conversion helpers only this is
    used: a call comes back, with a pair or with an exception.  The last
    field is the answer of [time.sleep] to a length outside the range
    that every build sleeps. *)

Record Platform := mkPlatform
  { KEYBOARD_MAPPING : gmap string Z;           (* _keycodes.py *)
    from_string : string -> Z * Z;              (* MouseState.from_string *)
    KEY_DOWN : Z;                               (* KeyState *)
    KEY_UP : Z;
    MOUSE_MOVE_RELATIVE : Z;                    (* MouseFlag *)
    MOUSE_MOVE_ABSOLUTE : Z;
    MOUSE_WHEEL : Z;                            (* MouseState *)
    MOUSE_WHEEL_UP : Z;                         (* MouseRolling *)
    MOUSE_WHEEL_DOWN : Z;
    FILTER_KEY_DOWN : Z;                        (* FilterKeyState *)
    FILTER_KEY_ALL : Z;
    FILTER_MOUSE_LEFT_BUTTON_DOWN : Z;          (* FilterMouseState *)
    FILTER_MOUSE_ALL : Z;
    normalize : Z + Z * Z -> option Z -> outcome (Z * Z);
                                                (* _utils.normalize *)
    to_interception_coordinate : Z -> Z -> outcome (Z * Z);
                                (* _utils.to_interception_coordinate *)
    cursor_pos : Z * Z;                         (* _utils.get_cursor_pos *)
    time_sleep_rejects : Q -> option exn }.
                  (* time.sleep outside the range every build accepts *)

(** The import of the module, [inputs.py] lines 23-27: the constructor
    of the global context either succeeds or raises, and only a flag
    remembers which. *)
Definition import_module (constructor : outcome unit) : bool :=
  match constructor with
  | Ret _ => true
  | Raise _ => false
  end.

(** ** Input actions, [inputs.py] lines 30-308 *)

(** What the global context and the clock were asked to do, in order.
    Lengths of time are finite numbers. *)
Inductive event :=
| ESend (device : Z) (s : stroke)
| ESleep (seconds : Q).

Module Inputs.

Definition MOUSE_BUTTON_DELAY : Q := 3 # 100.
Definition KEY_PRESS_DELAY : Q := 25 # 1000.

Definition keyboard : Z := 1.
Definition mouse : Z := 11.

Definition _SUPPORTED_BUTTONS : gset string :=
  {[ "left"; "right"; "middle"; "mouse4"; "mouse5" ]}.

(** Modelled from the spec: [interception.send] on the global context
    ([interception.py] is absent).  The context is open and the devices
    addressed below (1 and 11) are in range, so the stroke is handed to
    the driver. *)
Definition interception_send (device : Z) (s : stroke) : M (list event) unit :=
  fun w => Some (Ret tt, w ++ [ESend device s]).

(** The longest sleep that every CPython build performs: 2^32 - 1
    milliseconds, in whole seconds. *)
Definition COMMON_SLEEP : Q := 4294967.

(** What [time.sleep(seconds)] answers for a finite number: [None] when
    it sleeps, the exception otherwise.  Lengths from 0 to
    [COMMON_SLEEP] are slept and negative ones down to [-COMMON_SLEEP]
    raise [ValueError] on every build.  Further out the answer depends
    on the build (an [OverflowError] once the length no longer fits the
    clock, an [OSError] close to that bound on some systems): [rejects]
    is that answer.  No build sleeps a negative length. *)
Definition sleep_verdict (rejects : Q -> option exn) (seconds : Q) : option exn :=
  if Qle_bool 0 seconds
  then if Qle_bool seconds COMMON_SLEEP then None else rejects seconds
  else if Qle_bool (- COMMON_SLEEP) seconds then Some ValueError
       else match rejects seconds with
            | Some e => Some e
            | None => Some ValueError
            end.

(** [time.sleep] *)
Definition time_sleep (rejects : Q -> option exn) (seconds : Q)
  : M (list event) unit :=
  fun w =>
    match sleep_verdict rejects seconds with
    | None => Some (Ret tt, w ++ [ESleep seconds])
    | Some e => Some (Raise e, w)
    end.

(** [delay or DEFAULT]: [None] and zero are falsy. *)
Definition or_default (delay : option Q) (default : Q) : Q :=
  match delay with
  | None => default
  | Some d => if Qeq_bool d 0 then default else d
  end.

(** A length in the range that every build sleeps. *)
Definition common_length (seconds : Q) : Prop :=
  (0 <= seconds)%Q /\ (seconds <= COMMON_SLEEP)%Q.

(** A delay argument that is absent, zero or positive, within the range
    that every build sleeps. *)
Definition accepted_delay (delay : option Q) : Prop :=
  match delay with
  | None => True
  | Some d => common_length d
  end.

Section WithPlatform.
Variable P : Platform.
Variable INTERCEPTION_INSTALLED : bool.

(** [time.sleep] on this platform. *)
Definition sleep (seconds : Q) : M (list event) unit :=
  time_sleep (time_sleep_rejects P) seconds.

(** The strokes the operations build. *)
Definition key_stroke_down (kcode : Z) : stroke := Key (mkKeyStroke kcode (KEY_DOWN P) 0).
Definition key_stroke_up (kcode : Z) : stroke := Key (mkKeyStroke kcode (KEY_UP P) 0).
Definition button_stroke_down (button : string) : stroke :=
  Mouse (mkMouseStroke (fst (from_string P button)) (MOUSE_MOVE_ABSOLUTE P) 0 0 0 0).
Definition button_stroke_up (button : string) : stroke :=
  Mouse (mkMouseStroke (snd (from_string P button)) (MOUSE_MOVE_ABSOLUTE P) 0 0 0 0).

Definition _SUPPORTED_KEYS : gmap string Z := KEYBOARD_MAPPING P.

Definition _check_button_exists (button : string) : M (list event) unit :=
  if decide (button ∈ _SUPPORTED_BUTTONS) then ret tt
  else raise (UnknownButtonError button).

Definition _check_key_exists (key : string) : M (list event) unit :=
  match _SUPPORTED_KEYS !! key with
  | Some _ => ret tt
  | None => raise (UnknownKeyError key)
  end.

(** [KEYBOARD_MAPPING[key]] *)
Definition keycode (key : string) : M (list event) Z :=
  match KEYBOARD_MAPPING P !! key with
  | Some kcode => ret kcode
  | None => raise (KeyError key)
  end.

(** [move_to(x, y)].  [_utils.normalize] and
    [_utils.to_interception_coordinate] are absent: the platform says
    what they return or raise. *)
Definition move_to (x : Z + Z * Z) (y : option Z) : M (list event) unit :=
  requires_driver INTERCEPTION_INSTALLED (
    p <- (fun w => Some (normalize P x y, w)) ;;
    c <- (fun w => Some (to_interception_coordinate P (fst p) (snd p), w)) ;;
    interception_send mouse
      (Mouse (mkMouseStroke 0 (MOUSE_MOVE_ABSOLUTE P) 0 (fst c) (snd c) 0))).

Definition move_relative (x y : Z) : M (list event) unit :=
  requires_driver INTERCEPTION_INSTALLED (
    interception_send mouse
      (Mouse (mkMouseStroke 0 (MOUSE_MOVE_RELATIVE P) 0 x y 0))).

Definition mouse_position : M (list event) (Z * Z) :=
  ret (cursor_pos P).

Definition key_down (key : string) (delay : option Q) : M (list event) unit :=
  requires_driver INTERCEPTION_INSTALLED (
    let key := lower key in
    _check_key_exists key ;;
    kcode <- keycode key ;;
    interception_send keyboard (Key (mkKeyStroke kcode (KEY_DOWN P) 0)) ;;
    sleep (or_default delay KEY_PRESS_DELAY)).

Definition key_up (key : string) (delay : option Q) : M (list event) unit :=
  requires_driver INTERCEPTION_INSTALLED (
    let key := lower key in
    _check_key_exists key ;;
    kcode <- keycode key ;;
    interception_send keyboard (Key (mkKeyStroke kcode (KEY_UP P) 0)) ;;
    sleep (or_default delay KEY_PRESS_DELAY)).

Definition mouse_down (button : string) (delay : option Q) : M (list event) unit :=
  requires_driver INTERCEPTION_INSTALLED (
    _check_button_exists button ;;
    let down := fst (from_string P button) in
    interception_send mouse
      (Mouse (mkMouseStroke down (MOUSE_MOVE_ABSOLUTE P) 0 0 0 0)) ;;
    sleep (or_default delay MOUSE_BUTTON_DELAY)).

Definition mouse_up (button : string) (delay : option Q) : M (list event) unit :=
  requires_driver INTERCEPTION_INSTALLED (
    _check_button_exists button ;;
    let up := snd (from_string P button) in
    interception_send mouse
      (Mouse (mkMouseStroke up (MOUSE_MOVE_ABSOLUTE P) 0 0 0 0)) ;;
    sleep (or_default delay MOUSE_BUTTON_DELAY)).

(** [click(x, y, button, clicks, interval, delay)]; the defaults are
    [None, None, "left", 1, 0.1, 0.3]. *)
Definition click (x : option (Z + Z * Z)) (y : option Z) (button : string)
    (clicks : Z) (interval delay : Q) : M (list event) unit :=
  requires_driver INTERCEPTION_INSTALLED (
    _check_button_exists button ;;
    match x with
    | Some x => move_to x y ;; sleep delay
    | None => ret tt
    end ;;
    for_range clicks (
      mouse_down button None ;;
      mouse_up button None ;;
      if 1 <? clicks then sleep interval else ret tt)).

Definition left_click (clicks : Z) (interval : Q) : M (list event) unit :=
  requires_driver INTERCEPTION_INSTALLED (
    click None None "left" clicks interval (3 # 10)).

Definition right_click (clicks : Z) (interval : Q) : M (list event) unit :=
  requires_driver INTERCEPTION_INSTALLED (
    click None None "right" clicks interval (3 # 10)).

(** [press(key, presses, interval)]; the defaults are [1] and [0.1]. *)
Definition press (key : string) (presses : Z) (interval : Q) : M (list event) unit :=
  requires_driver INTERCEPTION_INSTALLED (
    let key := lower key in
    _check_key_exists key ;;
    for_range presses (
      key_down key None ;;
      key_up key None ;;
      if 1 <? presses then sleep interval else ret tt)).

(** [for c in term: press(c); time.sleep(interval)] *)
Fixpoint write_chars (term : string) (interval : Q) : M (list event) unit :=
  match term with
  | EmptyString => ret tt
  | String c rest =>
      press (String c EmptyString) 1 (1 # 10) ;;
      sleep interval ;;
      write_chars rest interval
  end.

(** [write(term, interval)]; the default interval is [0.05]. *)
Definition write (term : string) (interval : Q) : M (list event) unit :=
  requires_driver INTERCEPTION_INSTALLED (write_chars (lower term) interval).

Definition scroll (direction : string) : M (list event) unit :=
  requires_driver INTERCEPTION_INSTALLED (
    let amount :=
      if String.eqb direction "up" then MOUSE_WHEEL_UP P else MOUSE_WHEEL_DOWN P in
    interception_send mouse (Mouse (mkMouseStroke (MOUSE_WHEEL P) 0 amount 0 0 0)) ;;
    sleep (25 # 1000)).

(** [with hold_mouse(button): body].  The generator runs [mouse_down],
    yields to the body, and releases in its [finally]. *)
Definition hold_mouse {A} (button : string) (body : M (list event) A)
  : M (list event) A :=
  requires_driver INTERCEPTION_INSTALLED (
    mouse_down button None ;;
    try_finally body (mouse_up button None)).

(** [with hold_key(key): body] *)
Definition hold_key {A} (key : string) (body : M (list event) A)
  : M (list event) A :=
  requires_driver INTERCEPTION_INSTALLED (
    key_down key None ;;
    try_finally body (key_up key None)).

(** The events of one [mouse_down; mouse_up] pair with default delays. *)
Definition click_pair (button : string) : list event :=
  [ESend mouse (button_stroke_down button); ESleep MOUSE_BUTTON_DELAY;
   ESend mouse (button_stroke_up button); ESleep MOUSE_BUTTON_DELAY].

(** The events of one [key_down; key_up] pair with default delays. *)
Definition press_pair (kcode : Z) : list event :=
  [ESend keyboard (key_stroke_down kcode); ESleep KEY_PRESS_DELAY;
   ESend keyboard (key_stroke_up kcode); ESleep KEY_PRESS_DELAY].

(** The events of writing the characters of [text] one after another,
    each followed by the interval; a character without a key code
    contributes no stroke. *)
Fixpoint typed (interval : Q) (text : string) : list event :=
  match text with
  | EmptyString => []
  | String c rest =>
      match KEYBOARD_MAPPING P !! String c EmptyString with
      | Some kcode => press_pair kcode
      | None => []
      end ++ ESleep interval :: typed interval rest
  end.

(** Every character of [text] names a key of the table. *)
Fixpoint all_supported (text : string) : Prop :=
  match text with
  | EmptyString => True
  | String c rest =>
      is_Some (KEYBOARD_MAPPING P !! String c EmptyString) /\ all_supported rest
  end.

End WithPlatform.

(** Reading a trace: the strokes sent, the sleeps of a given length, and
    for every stroke the time slept before the next one (or the end). *)
Definition strokes (w : list event) : list (Z * stroke) :=
  flat_map (fun e => match e with ESend d s => [(d, s)] | ESleep _ => [] end) w.

Fixpoint sleeps_of (seconds : Q) (w : list event) : nat :=
  match w with
  | [] => O
  | ESleep d :: rest =>
      if Qeq_bool d seconds then S (sleeps_of seconds rest)
      else sleeps_of seconds rest
  | ESend _ _ :: rest => sleeps_of seconds rest
  end.

Fixpoint pause_ahead (w : list event) : Q :=
  match w with
  | ESleep d :: rest => d + pause_ahead rest
  | _ => 0
  end.

Fixpoint pauses (w : list event) : list Q :=
  match w with
  | [] => []
  | ESend _ _ :: rest => pause_ahead rest :: pauses rest
  | ESleep _ :: rest => pauses rest
  end.

End Inputs.

(** ** What an action may leave behind *)

Module Footprint.

(** Events of the keyboard operations: key strokes for the default
    keyboard, and sleeps that [time.sleep] accepted. *)
Definition keyboard_event (e : event) : Prop :=
  match e with
  | ESend d (Key _) => d = Inputs.keyboard
  | ESend _ (Mouse _) => False
  | ESleep s => (0 <= s)%Q
  end.

(** Events of the mouse operations: mouse strokes for the default mouse,
    and sleeps that [time.sleep] accepted. *)
Definition mouse_event (e : event) : Prop :=
  match e with
  | ESend d (Mouse _) => d = Inputs.mouse
  | ESend _ (Key _) => False
  | ESleep s => (0 <= s)%Q
  end.

(** An exception that [time.sleep] raises on the platform for some
    length: [ValueError] for a negative one, and what the build raises
    for a length outside its range. *)
Definition sleep_error (P : Platform) (e : exn) : Prop :=
  exists seconds, Inputs.sleep_verdict (time_sleep_rejects P) seconds = Some e.

(** An exception that [_utils.normalize] or
    [_utils.to_interception_coordinate] raises for some arguments. *)
Definition helper_error (P : Platform) (e : exn) : Prop :=
  (exists x y, normalize P x y = Raise e) \/
  (exists x y, to_interception_coordinate P x y = Raise e).

Definition keyboard_error (P : Platform) (e : exn) : Prop :=
  e = DriverNotFoundError \/ (exists key, e = UnknownKeyError key) \/ sleep_error P e.

Definition mouse_error (P : Platform) (e : exn) : Prop :=
  e = DriverNotFoundError \/ (exists button, e = UnknownButtonError button)
  \/ sleep_error P e.

(** The errors of the operations that take a screen position. *)
Definition positional_error (P : Platform) (e : exn) : Prop :=
  mouse_error P e \/ helper_error P e.

(** The action always comes back, keeps the events already recorded,
    appends only events in [Q] and raises only exceptions in [E]. *)
Definition footprint {A} (Q : event -> Prop) (E : exn -> Prop)
    (m : M (list event) A) : Prop :=
  forall w, exists o added,
    m w = Some (o, w ++ added) /\
    Forall Q added /\
    match o with
    | Raise e => E e
    | Ret _ => True
    end.

End Footprint.

(** ** The driver context *)

(** The interface of the [Interception] class that the loops use.
    [interception.py] is absent, so the loops are written against this
    interface; [wait], [receive] and [send] may return, raise anything or
    block. *)
Class DriverContext (C : Type) := mkDriverContext
  { wait : M C Z;
    receive : Z -> M C stroke;
    send : Z -> stroke -> M C unit;
    set_filter : (Z -> bool) -> Z -> C -> C;
    _destroy_context : C -> C;
    is_closed : C -> bool;
    destroy_closes : forall c, is_closed (_destroy_context c) = true }.

Module Mock.

(** Modelled from the spec: a context over a simulated input stream.
    [pending] holds the strokes the driver surfaces, oldest first, each
    with the device that produced it; [sent] the strokes handed back to
    the driver; [filters] the mask installed per device. *)
Record context := mkContext
  { pending : list (Z * stroke);
    sent : list (Z * stroke);
    filters : gmap Z Z;
    closed : bool }.

Definition fresh (stream : list (Z * stroke)) : context :=
  mkContext stream [] ∅ false.

(** [wait()] without a timeout: the device of the oldest pending stroke;
    it blocks while nothing is pending. *)
Definition mock_wait : M context Z :=
  fun c =>
    if closed c then Some (Raise ContextClosedError, c)
    else match pending c with
         | [] => None
         | (device, _) :: _ => Some (Ret device, c)
         end.

(** The oldest stroke queued for [device], and the queue without it. *)
Fixpoint take_first (device : Z) (q : list (Z * stroke))
  : option (stroke * list (Z * stroke)) :=
  match q with
  | [] => None
  | (d, s) :: rest =>
      if d =? device then Some (s, rest)
      else match take_first device rest with
           | Some (s', rest') => Some (s', (d, s) :: rest')
           | None => None
           end
  end.

Definition mock_receive (device : Z) : M context stroke :=
  fun c =>
    if closed c then Some (Raise ContextClosedError, c)
    else match take_first device (pending c) with
         | Some (s, rest) =>
             Some (Ret s, mkContext rest (sent c) (filters c) (closed c))
         | None => Some (Raise NoPendingStrokeError, c)
         end.

Definition mock_send (device : Z) (s : stroke) : M context unit :=
  fun c =>
    if closed c then Some (Raise ContextClosedError, c)
    else if DeviceRegistry.is_valid device
    then Some (Ret tt, mkContext (pending c) (sent c ++ [(device, s)])
                         (filters c) (closed c))
    else Some (Raise InvalidDeviceError, c).

(** The mask replaces the one of every device slot the predicate selects. *)
Definition mock_set_filter (predicate : Z -> bool) (mask : Z) (c : context)
  : context :=
  mkContext (pending c) (sent c)
    (foldr (fun device m => if predicate device then <[device := mask]> m else m)
       (filters c) (seqZ 1 20))
    (closed c).

Definition mock_destroy (c : context) : context :=
  mkContext (pending c) (sent c) (filters c) true.

#[global] Instance mock_context : DriverContext context :=
  mkDriverContext context mock_wait mock_receive mock_send mock_set_filter
    mock_destroy closed (fun _ => eq_refl).

End Mock.

(** ** Capture and listen loops, [inputs.py] lines 311-414 *)

Module EventLoops.
Import DeviceRegistry.

(** Each loop starts from the context that [Interception()] has just
    created for it; the state [C] is that context. *)
Section WithContext.
Context {C : Type} `{DriverContext C}.
Variable P : Platform.
Variable INTERCEPTION_INSTALLED : bool.

(** [stroke.code]: only a key stroke has the attribute. *)
Definition stroke_code (s : stroke) : M C Z :=
  match s with
  | Key k => ret (code k)
  | Mouse _ => raise AttributeError
  end.

Definition lift (f : C -> C) : M C unit := fun c => Some (Ret tt, f c).

(** One iteration of the loop of [capture_keyboard] and of
    [listen_to_keyboard], lines 323-331 and 376-384. *)
Definition keyboard_iteration : M C (option Z) :=
  device <- wait ;;
  stroke <- receive device ;;
  c <- stroke_code stroke ;;
  if c =? 0x01 then ret (Some device)
  else (send device stroke ;; ret None).

(** One iteration of the loop of [capture_mouse] and of
    [listen_to_mouse], lines 349-359 and 402-412.  [and] evaluates
    [stroke.code] only for a keyboard device. *)
Definition mouse_iteration : M C (option Z) :=
  device <- wait ;;
  stroke <- receive device ;;
  escape <- (if is_keyboard device
             then (c <- stroke_code stroke ;; ret (c =? 0x01))
             else ret false) ;;
  if escape then ret (Some device)
  else (send device stroke ;; ret None).

Definition capture_keyboard (fuel : nat) : M C Z :=
  requires_driver INTERCEPTION_INSTALLED (
    lift (set_filter is_keyboard (FILTER_KEY_DOWN P)) ;;
    try_finally (while_true fuel keyboard_iteration) (lift _destroy_context)).

Definition capture_mouse (fuel : nat) : M C Z :=
  requires_driver INTERCEPTION_INSTALLED (
    lift (set_filter is_mouse (FILTER_MOUSE_LEFT_BUTTON_DOWN P)) ;;
    lift (set_filter is_keyboard (FILTER_KEY_DOWN P)) ;;
    try_finally (while_true fuel mouse_iteration) (lift _destroy_context)).

Definition listen_to_keyboard (fuel : nat) : M C Z :=
  requires_driver INTERCEPTION_INSTALLED (
    lift (set_filter is_keyboard (FILTER_KEY_ALL P)) ;;
    try_finally (while_true fuel keyboard_iteration) (lift _destroy_context)).

Definition listen_to_mouse (fuel : nat) : M C Z :=
  requires_driver INTERCEPTION_INSTALLED (
    lift (set_filter is_mouse (FILTER_MOUSE_ALL P)) ;;
    lift (set_filter is_keyboard (FILTER_KEY_DOWN P)) ;;
    try_finally (while_true fuel mouse_iteration) (lift _destroy_context)).

End WithContext.

End EventLoops.

(** ** Simulated input streams *)

Module Streams.
Import DeviceRegistry.

(** A stream of key strokes as the driver surfaces it. *)
Definition surfaced (keys : list (Z * KeyStroke)) : list (Z * stroke) :=
  map (fun e => (fst e, Key (snd e))) keys.

(** A key stroke other than Escape. *)
Definition ordinary_key (s : stroke) : bool :=
  match s with
  | Key k => negb (code k =? 0x01)
  | Mouse _ => false
  end.

(** A surfaced stroke that a keyboard loop hands back to the driver: an
    ordinary key stroke of a device in range. *)
Definition keyboard_passes (e : Z * stroke) : bool :=
  is_valid (fst e) && ordinary_key (snd e).

(** A surfaced stroke that a mouse loop hands back to the driver: from a
    device in range, and an ordinary key stroke if that device is a
    keyboard. *)
Definition mouse_passes (e : Z * stroke) : bool :=
  is_valid (fst e) && (if is_keyboard (fst e) then ordinary_key (snd e) else true).

End Streams.

(** ** How a loop reacts to the next surfaced stroke *)

Module Verdicts.
Import DeviceRegistry.

Inductive verdict :=
| Forwarded            (* sent back, the loop goes on *)
| Returned             (* the loop returns the device *)
| Failed (e : exn).    (* the exception leaves the loop *)

(** Handing a stroke back to a context that rejects devices out of range. *)
Definition resend (device : Z) : verdict :=
  if is_valid device then Forwarded else Failed InvalidDeviceError.

(** Lines 323-331 and 376-384 read off one stroke. *)
Definition keyboard_verdict (e : Z * stroke) : verdict :=
  match snd e with
  | Mouse _ => Failed AttributeError
  | Key k => if code k =? 0x01 then Returned else resend (fst e)
  end.

(** Lines 349-359 and 402-412 read off one stroke. *)
Definition mouse_verdict (e : Z * stroke) : verdict :=
  if is_keyboard (fst e)
  then match snd e with
       | Mouse _ => Failed AttributeError
       | Key k => if code k =? 0x01 then Returned else resend (fst e)
       end
  else resend (fst e).

(** The result of one iteration on the mock, for a verdict. *)
Definition iteration_result (v : verdict) (e : Z * stroke)
    (rest snt : list (Z * stroke)) (flt : gmap Z Z)
  : option (outcome (option Z) * Mock.context) :=
  match v with
  | Forwarded => Some (Ret None, Mock.mkContext rest (snt ++ [e]) flt false)
  | Returned => Some (Ret (Some (fst e)), Mock.mkContext rest snt flt false)
  | Failed err => Some (Raise err, Mock.mkContext rest snt flt false)
  end.

End Verdicts.

(** ** The helper scripts *)

Module Scripts.

(** [class ScanCode], [src/_get_keyboard.py] lines 7-23. *)
Definition ScanCode : list (string * Z) :=
  [("ESC", 1); ("NUM1", 2); ("NUM2", 3); ("NUM3", 4); ("NUM4", 5);
   ("NUM5", 6); ("NUM6", 7); ("NUM7", 8); ("NUM8", 9); ("NUM9", 10);
   ("NUM0", 11); ("M", 50); ("MINUS", 12); ("KEY_DOWN", 0); ("KEY_UP", 1)].

(** [str(n)] for a number a [range] yields: its decimal digits. *)
Definition digit_char (d : nat) : ascii := ascii_of_nat (48 + d).

Fixpoint str_digits (fuel n : nat) (acc : string) : string :=
  match fuel with
  | O => acc
  | S fuel' =>
      let acc' := String (digit_char (n mod 10)) acc in
      match (n / 10)%nat with
      | O => acc'
      | q => str_digits fuel' q acc'
      end
  end.

Definition str (n : nat) : string := str_digits (S n) n EmptyString.

(** The scan code of a digit's key, and the two strokes the probe sends
    to device [n]. *)
Definition digit_scan_code (n : nat) : Z :=
  if (n =? 0)%nat then 11 else Z.of_nat n + 1.

Definition probe_strokes (n : nat) : list event :=
  [ESend (Z.of_nat n) (Key (mkKeyStroke (digit_scan_code n) 0 0));
   ESend (Z.of_nat n) (Key (mkKeyStroke (digit_scan_code n) 1 0))].

(** [for x in items: body] *)
Fixpoint for_each {S A} (items : list A) (body : A -> M S unit) : M S unit :=
  match items with
  | [] => ret tt
  | x :: rest => (body x ;; for_each rest body)%act
  end.

(** [range(n)] *)
Definition range (n : Z) : list nat := seq 0 (Z.to_nat n).

(** The first device the predicate accepts, 0 when it accepts none:
    [src/_left_click.py] lines 18-22. *)
Fixpoint first_mouse (is_mouse : Z -> bool) (devices : list nat) : Z :=
  match devices with
  | [] => 0
  | i :: rest => if is_mouse (Z.of_nat i) then Z.of_nat i
                 else first_mouse is_mouse rest
  end.

Section WithDriver.
(** What [interception()] does when the script creates its context. *)
Variable constructor : outcome unit.
(** The devices to which the context's [send] delivers a stroke. *)
Variable valid_device : Z -> bool.
(** [Interception.is_mouse], [MAX_KEYBOARD], [MAX_DEVICES], the screen
    metrics and the values of the driver's constants come from files
    that are not in [src/]. *)
Variable is_mouse : Z -> bool.
Variable MAX_KEYBOARD MAX_DEVICES : Z.
Variable screen_width screen_height : Z.
Variable LEFT_BUTTON_DOWN LEFT_BUTTON_UP MOVE_ABSOLUTE : Z.

Definition interception : M (list event) unit :=
  match constructor with
  | Ret _ => ret tt
  | Raise e => raise e
  end.

(** [c.send(device, stroke)] for a device the context delivers to: the
    stroke is handed to the driver. *)
Definition context_send (device : Z) (s : stroke) : M (list event) unit :=
  fun w => Some (Ret tt, w ++ [ESend device s]).

(** Modelled from the spec: [send(device, stroke)] "fails with
    InvalidDeviceError if device is outside the registry's valid range";
    the range is [valid_device], which the spec gives as 1..20
    ([DeviceRegistry.is_valid]).  The refusal comes before anything is
    handed to the driver. *)
Definition checked_send (device : Z) (s : stroke) : M (list event) unit :=
  if valid_device device then context_send device s
  else raise InvalidDeviceError.

(** [ScanCode.<name>], also through [eval('ScanCode.' + name)]. *)
Definition scan_code (name : string) : M (list event) Z :=
  match (list_to_map ScanCode : gmap string Z) !! name with
  | Some v => ret v
  | None => raise AttributeError
  end.

(** [send_key], [src/_get_keyboard.py] lines 25-28 and
    [src/send_key.py] lines 14-17. *)
Definition send_key (device scancode : Z) : M (list event) unit :=
  (interception ;;
   down <- scan_code "KEY_DOWN" ;;
   checked_send device (Key (mkKeyStroke scancode down 0)) ;;
   up <- scan_code "KEY_UP" ;;
   checked_send device (Key (mkKeyStroke scancode up 0)))%act.

(** [eval('ScanCode.NUM' + str(device))] *)
Definition num_key (device : nat) : M (list event) Z :=
  scan_code (String.append "NUM" (str device)).

(** The main block of [src/_get_keyboard.py], lines 30-34. *)
Definition get_keyboard : M (list event) unit :=
  for_each (range MAX_KEYBOARD)
    (fun device =>
       (numkey <- num_key device ;;
        send_key (Z.of_nat device) numkey)%act).

(** [int((0xFFFF * point) / dimension)]: the division raises on a zero
    dimension. *)
Definition scaled (point dimension : Z) : M (list event) Z :=
  if dimension =? 0 then raise (OtherError "ZeroDivisionError")
  else ret (Coordinates.scale point dimension).

(** [exit(0)] *)
Definition exit : M (list event) unit := raise (OtherError "SystemExit").

(** The two strokes of a left click at pixel [(x, y)]: the stroke object
    is built once and its state is overwritten between the two sends,
    [src/_left_click.py] lines 34-45 and [src/_get_mouse.py] lines 31-41. *)
Definition click_at (mouse x y : Z) : M (list event) unit :=
  (cx <- scaled x screen_width ;;
   cy <- scaled y screen_height ;;
   let mstroke := mkMouseStroke LEFT_BUTTON_DOWN MOVE_ABSOLUTE 0 cx cy 0 in
   context_send mouse (Mouse mstroke) ;;
   let mstroke :=
     mkMouseStroke LEFT_BUTTON_UP (flags mstroke) (rolling mstroke)
       (mx mstroke) (my mstroke) (minformation mstroke) in
   context_send mouse (Mouse mstroke))%act.

(** [src/_left_click.py] *)
Definition left_click_script : M (list event) unit :=
  (interception ;;
   let mouse := first_mouse is_mouse (range MAX_DEVICES) in
   (if mouse =? 0 then exit else ret tt) ;;
   let mouse := 11 in
   click_at mouse 23 303)%act.

(** [src/_get_mouse.py].  A sleep of two seconds is in the range every
    build performs, so what a build rejects plays no part. *)
Definition get_mouse_script : M (list event) unit :=
  (interception ;;
   let mouseList :=
     List.filter (fun i => is_mouse (Z.of_nat i)) (range MAX_DEVICES) in
   (if (length mouseList =? 0)%nat then exit else ret tt) ;;
   for_each mouseList
     (fun mouse =>
        (click_at (Z.of_nat mouse) 32 32 ;;
         Inputs.time_sleep (fun _ => None) 2)%act))%act.

End WithDriver.

End Scripts.

(** ** A concrete platform

    The constants of the driver's header and a three-key table, to run
    the model on concrete calls. *)

Definition sample_from_string (button : string) : Z * Z :=
  if String.eqb button "left" then (0x001, 0x002)
  else if String.eqb button "right" then (0x004, 0x008)
  else if String.eqb button "middle" then (0x010, 0x020)
  else if String.eqb button "mouse4" then (0x040, 0x080)
  else (0x100, 0x200).

Definition sample_platform : Platform :=
  mkPlatform (list_to_map [("a", 0x1E); ("b", 0x30); ("esc", 0x01)])
    sample_from_string 0 1 0 1 0x400 120 (-120) 0x01 0xFFFF 0x001 0xFFFF
    (fun x y => Ret match x with inl x => (x, default 0 y) | inr p => p end)
    (fun x y => Ret (Coordinates.to_interception_coordinate (1920, 1080) x y))
    (640, 480)
    (fun seconds =>
       if Qle_bool 9223372036 seconds || negb (Qle_bool (-9223372036) seconds)
       then Some (OtherError "OverflowError") else None).


(** * Properties *)

Section RegistryFacts.
Import DeviceRegistry.

(** C1: [is_keyboard id] holds exactly for 1 <= id <= 10, [is_mouse id]
    exactly for 11 <= id <= 20; the two never hold together, one of them
    holds exactly on 1..20 (so both are false outside, and at 0). *)
Theorem device_classification (id : Z) :
  (is_keyboard id = true <-> 1 <= id <= 10) /\
  (is_mouse id = true <-> 11 <= id <= 20) /\
  is_keyboard id && is_mouse id = false /\
  (is_keyboard id || is_mouse id = true <-> 1 <= id <= 20) /\
  is_keyboard 0 = false /\ is_mouse 0 = false.
Proof.
  unfold is_keyboard, is_mouse.
  destruct (Z.leb_spec 1 id), (Z.leb_spec id 10),
    (Z.leb_spec 11 id), (Z.leb_spec id 20); simpl;
    repeat split; intros; try reflexivity; try discriminate; lia.
Qed.

End RegistryFacts.

Section CoordinateFacts.
Import Coordinates.

Lemma round_ratio_near_floor (n d : Z) :
  0 < d -> n / d <= round_ratio n d <= n / d + 1.
Proof.
  intros Hd. unfold round_ratio.
  repeat match goal with |- context [if ?b then _ else _] => destruct b end; lia.
Qed.

Lemma scale_is_floor (p d : Z) : 0 <= p -> 0 < d -> scale p d = (65535 * p) / d.
Proof.
  intros Hp Hd. unfold scale. apply Z.quot_div_nonneg; lia.
Qed.

(** C8: for a pixel inside a W x H screen, the driver coordinate computed
    as [int((0xFFFF * x) / W)] is within one unit of [round(65535*x/W)],
    on both axes. *)
Theorem coordinate_within_one (W H x y : Z) :
  0 <= x < W -> 0 <= y < H ->
  Z.abs (fst (to_interception_coordinate (W, H) x y)
         - fst (reference_coordinate (W, H) x y)) <= 1 /\
  Z.abs (snd (to_interception_coordinate (W, H) x y)
         - snd (reference_coordinate (W, H) x y)) <= 1.
Proof.
  intros Hx Hy. simpl.
  rewrite !scale_is_floor by lia.
  pose proof (round_ratio_near_floor (65535 * x) W ltac:(lia)).
  pose proof (round_ratio_near_floor (65535 * y) H ltac:(lia)).
  lia.
Qed.

Lemma coordinate_within_one_witness :
  Z.abs (fst (to_interception_coordinate (1920, 1080) 23 303)
         - fst (reference_coordinate (1920, 1080) 23 303)) <= 1 /\
  Z.abs (snd (to_interception_coordinate (1920, 1080) 23 303)
         - snd (reference_coordinate (1920, 1080) 23 303)) <= 1.
Proof. apply (coordinate_within_one 1920 1080 23 303); lia. Defined.

End CoordinateFacts.

(** ** The driver guard *)

Section DriverGuard.
Import Inputs EventLoops.
Context {C : Type} `{DriverContext C}.
Variable P : Platform.

(** C7: when the constructor of the global context raises, importing the
    module raises nothing and only clears the flag; then every operation
    behind [requires_driver] raises [DriverNotFoundError] without touching
    the driver, and [mouse_position] still returns the cursor position. *)
Theorem driver_absent_raises_lazily (e : exn) (w : list event) (c : C) :
  let installed := import_module (Raise e) in
  installed = false /\
  (forall x y, move_to P installed x y w = Some (Raise DriverNotFoundError, w)) /\
  (forall x y, move_relative P installed x y w = Some (Raise DriverNotFoundError, w)) /\
  (forall x y button clicks interval delay,
      click P installed x y button clicks interval delay w
      = Some (Raise DriverNotFoundError, w)) /\
  (forall clicks interval,
      left_click P installed clicks interval w = Some (Raise DriverNotFoundError, w) /\
      right_click P installed clicks interval w = Some (Raise DriverNotFoundError, w)) /\
  (forall key presses interval,
      press P installed key presses interval w = Some (Raise DriverNotFoundError, w)) /\
  (forall term interval,
      write P installed term interval w = Some (Raise DriverNotFoundError, w)) /\
  (forall direction, scroll P installed direction w = Some (Raise DriverNotFoundError, w)) /\
  (forall key delay,
      key_down P installed key delay w = Some (Raise DriverNotFoundError, w) /\
      key_up P installed key delay w = Some (Raise DriverNotFoundError, w)) /\
  (forall button delay,
      mouse_down P installed button delay w = Some (Raise DriverNotFoundError, w) /\
      mouse_up P installed button delay w = Some (Raise DriverNotFoundError, w)) /\
  (forall (A : Type) name (body : M (list event) A),
      hold_mouse P installed name body w = Some (Raise DriverNotFoundError, w) /\
      hold_key P installed name body w = Some (Raise DriverNotFoundError, w)) /\
  (forall fuel,
      capture_keyboard P installed fuel c = Some (Raise DriverNotFoundError, c) /\
      capture_mouse P installed fuel c = Some (Raise DriverNotFoundError, c) /\
      listen_to_keyboard P installed fuel c = Some (Raise DriverNotFoundError, c) /\
      listen_to_mouse P installed fuel c = Some (Raise DriverNotFoundError, c)) /\
  mouse_position P w = Some (Ret (cursor_pos P), w).
Proof.
  simpl. repeat split.
Qed.

End DriverGuard.

(** ** Single strokes and their settle delay *)

Section StrokeFacts.
Import Inputs.
Variable P : Platform.

Lemma or_default_positive (delay : option Q) (default : Q) :
  (0 < default)%Q -> accepted_delay delay -> (0 < or_default delay default)%Q.
Proof.
  intros Hdef Hacc. destruct delay as [d|]; simpl; [|exact Hdef].
  destruct (Qeq_bool d 0) eqn:E; [exact Hdef|].
  apply Qeq_bool_neq in E. simpl in Hacc. destruct Hacc as [Hacc _].
  apply Qle_lteq in Hacc. destruct Hacc as [Hlt|Heq]; [exact Hlt|].
  exfalso. apply E. symmetry. exact Heq.
Qed.

Lemma or_default_common (delay : option Q) (default : Q) :
  common_length default -> accepted_delay delay ->
  common_length (or_default delay default).
Proof.
  intros Hdef Hacc. destruct delay as [d|]; simpl; [|exact Hdef].
  destruct (Qeq_bool d 0); [exact Hdef|exact Hacc].
Qed.

Lemma sleep_verdict_common (rejects : Q -> option exn) (d : Q) :
  common_length d -> sleep_verdict rejects d = None.
Proof.
  intros [H0 H1]. unfold sleep_verdict.
  apply Qle_bool_iff in H0. apply Qle_bool_iff in H1.
  rewrite H0, H1. reflexivity.
Qed.

Lemma negative_not_le (d : Q) : (d < 0)%Q -> Qle_bool 0 d = false.
Proof.
  intros Hd. destruct (Qle_bool 0 d) eqn:E; [|reflexivity].
  apply Qle_bool_iff in E. exfalso. exact (Qlt_not_le _ _ Hd E).
Qed.

Lemma sleep_verdict_negative (rejects : Q -> option exn) (d : Q) :
  (d < 0)%Q -> exists e, sleep_verdict rejects d = Some e.
Proof.
  intros Hd. unfold sleep_verdict. rewrite (negative_not_le d Hd).
  destruct (Qle_bool (- COMMON_SLEEP) d); [eexists; reflexivity|].
  destruct (rejects d); eexists; reflexivity.
Qed.

Lemma sleep_verdict_small_negative (rejects : Q -> option exn) (d : Q) :
  (d < 0)%Q -> (- COMMON_SLEEP <= d)%Q -> sleep_verdict rejects d = Some ValueError.
Proof.
  intros Hd Hlow. unfold sleep_verdict. rewrite (negative_not_le d Hd).
  apply Qle_bool_iff in Hlow. rewrite Hlow. reflexivity.
Qed.

Lemma sleep_slept (d : Q) (w : list event) :
  sleep_verdict (time_sleep_rejects P) d = None ->
  sleep P d w = Some (Ret tt, w ++ [ESleep d]).
Proof. intros Hv. unfold sleep, time_sleep. rewrite Hv. reflexivity. Qed.

Lemma sleep_rejected (d : Q) (e : exn) (w : list event) :
  sleep_verdict (time_sleep_rejects P) d = Some e ->
  sleep P d w = Some (Raise e, w).
Proof. intros Hv. unfold sleep, time_sleep. rewrite Hv. reflexivity. Qed.

Lemma sleep_common (d : Q) (w : list event) :
  common_length d -> sleep P d w = Some (Ret tt, w ++ [ESleep d]).
Proof. intros Hd. apply sleep_slept, sleep_verdict_common, Hd. Qed.

(** A stroke followed by [time.sleep]: the stroke is recorded, then the
    sleep or the exception of [time.sleep]. *)
Lemma send_then_sleep (device : Z) (st : stroke) (d : Q) (w : list event) :
  sleep P d (w ++ [ESend device st])
  = match sleep_verdict (time_sleep_rejects P) d with
    | None => Some (Ret tt, w ++ [ESend device st; ESleep d])
    | Some e => Some (Raise e, w ++ [ESend device st])
    end.
Proof.
  unfold sleep, time_sleep.
  destruct (sleep_verdict (time_sleep_rejects P) d); [reflexivity|].
  rewrite <- app_assoc. reflexivity.
Qed.

Lemma key_press_delay_positive : (0 < KEY_PRESS_DELAY)%Q.
Proof. reflexivity. Qed.

Lemma mouse_button_delay_positive : (0 < MOUSE_BUTTON_DELAY)%Q.
Proof. reflexivity. Qed.

Lemma key_press_delay_common : common_length KEY_PRESS_DELAY.
Proof. split; discriminate. Qed.

Lemma mouse_button_delay_common : common_length MOUSE_BUTTON_DELAY.
Proof. split; discriminate. Qed.

Lemma key_down_unknown (key : string) (delay : option Q) (w : list event) :
  KEYBOARD_MAPPING P !! lower key = None ->
  key_down P true key delay w = Some (Raise (UnknownKeyError (lower key)), w).
Proof.
  intros Hk. unfold key_down, requires_driver, bind, _check_key_exists, _SUPPORTED_KEYS.
  rewrite Hk. reflexivity.
Qed.

Lemma key_up_unknown (key : string) (delay : option Q) (w : list event) :
  KEYBOARD_MAPPING P !! lower key = None ->
  key_up P true key delay w = Some (Raise (UnknownKeyError (lower key)), w).
Proof.
  intros Hk. unfold key_up, requires_driver, bind, _check_key_exists, _SUPPORTED_KEYS.
  rewrite Hk. reflexivity.
Qed.

Lemma key_down_known (key : string) (kcode : Z) (delay : option Q) (w : list event) :
  KEYBOARD_MAPPING P !! lower key = Some kcode ->
  key_down P true key delay w
  = sleep P (or_default delay KEY_PRESS_DELAY) (w ++ [ESend keyboard (key_stroke_down P kcode)]).
Proof.
  intros Hk.
  unfold key_down, requires_driver, bind, _check_key_exists, keycode, _SUPPORTED_KEYS.
  rewrite Hk. reflexivity.
Qed.

Lemma key_up_known (key : string) (kcode : Z) (delay : option Q) (w : list event) :
  KEYBOARD_MAPPING P !! lower key = Some kcode ->
  key_up P true key delay w
  = sleep P (or_default delay KEY_PRESS_DELAY) (w ++ [ESend keyboard (key_stroke_up P kcode)]).
Proof.
  intros Hk.
  unfold key_up, requires_driver, bind, _check_key_exists, keycode, _SUPPORTED_KEYS.
  rewrite Hk. reflexivity.
Qed.

Lemma check_button_unknown (button : string) (w : list event) :
  button ∉ _SUPPORTED_BUTTONS ->
  _check_button_exists button w = Some (Raise (UnknownButtonError button), w).
Proof.
  intros Hb. unfold _check_button_exists.
  destruct (decide (button ∈ _SUPPORTED_BUTTONS)); [contradiction|reflexivity].
Qed.

Lemma check_button_known (button : string) (w : list event) :
  button ∈ _SUPPORTED_BUTTONS ->
  _check_button_exists button w = Some (Ret tt, w).
Proof.
  intros Hb. unfold _check_button_exists.
  destruct (decide (button ∈ _SUPPORTED_BUTTONS)); [reflexivity|contradiction].
Qed.

Lemma mouse_down_unknown (button : string) (delay : option Q) (w : list event) :
  button ∉ _SUPPORTED_BUTTONS ->
  mouse_down P true button delay w = Some (Raise (UnknownButtonError button), w).
Proof.
  intros Hb. unfold mouse_down, requires_driver, bind.
  rewrite check_button_unknown by exact Hb. reflexivity.
Qed.

Lemma mouse_up_unknown (button : string) (delay : option Q) (w : list event) :
  button ∉ _SUPPORTED_BUTTONS ->
  mouse_up P true button delay w = Some (Raise (UnknownButtonError button), w).
Proof.
  intros Hb. unfold mouse_up, requires_driver, bind.
  rewrite check_button_unknown by exact Hb. reflexivity.
Qed.

Lemma mouse_down_known (button : string) (delay : option Q) (w : list event) :
  button ∈ _SUPPORTED_BUTTONS ->
  mouse_down P true button delay w
  = sleep P (or_default delay MOUSE_BUTTON_DELAY)
      (w ++ [ESend mouse (button_stroke_down P button)]).
Proof.
  intros Hb. unfold mouse_down, requires_driver, bind.
  rewrite check_button_known by exact Hb. reflexivity.
Qed.

Lemma mouse_up_known (button : string) (delay : option Q) (w : list event) :
  button ∈ _SUPPORTED_BUTTONS ->
  mouse_up P true button delay w
  = sleep P (or_default delay MOUSE_BUTTON_DELAY)
      (w ++ [ESend mouse (button_stroke_up P button)]).
Proof.
  intros Hb. unfold mouse_up, requires_driver, bind.
  rewrite check_button_known by exact Hb. reflexivity.
Qed.

End StrokeFacts.

Section SettleDelay.
Import Inputs.
Variable P : Platform.

(** C6 (amended): with the driver installed and a supported name (a key
    name in ASCII), each of [key_down], [key_up], [mouse_down] and
    [mouse_up] sends its stroke and then hands [delay or DEFAULT] to
    [time.sleep]: the default (0.025 for keys, 0.03 for buttons) when the
    argument is absent or zero, the argument itself otherwise.  When the
    argument is absent, zero, or positive and at most 4294967 seconds,
    [time.sleep] sleeps it, so a strictly positive delay follows the
    stroke.  In every other case the stroke has been sent when
    [time.sleep] answers: a negative delay is never slept, it raises
    ([ValueError] down to -4294967 seconds, what the build raises below
    that), and a delay above 4294967 seconds is slept or raises as the
    build's [time.sleep] does; when it raises, no delay follows the
    stroke. *)
Theorem settle_delay_after_stroke (key button : string) (kcode : Z)
    (delay : option Q) (w : list event) :
  ascii_text key ->
  KEYBOARD_MAPPING P !! lower key = Some kcode ->
  button ∈ _SUPPORTED_BUTTONS ->
  let dk := or_default delay KEY_PRESS_DELAY in
  let dm := or_default delay MOUSE_BUTTON_DELAY in
  let settle (d : Q) (sent : event) :=
    match sleep_verdict (time_sleep_rejects P) d with
    | None => Some (Ret tt, w ++ [sent; ESleep d])
    | Some e => Some (Raise e, w ++ [sent])
    end in
  (key_down P true key delay w
     = settle dk (ESend keyboard (key_stroke_down P kcode)) /\
   key_up P true key delay w
     = settle dk (ESend keyboard (key_stroke_up P kcode)) /\
   mouse_down P true button delay w
     = settle dm (ESend mouse (button_stroke_down P button)) /\
   mouse_up P true button delay w
     = settle dm (ESend mouse (button_stroke_up P button))) /\
  ((KEY_PRESS_DELAY == 0.025)%Q /\ (MOUSE_BUTTON_DELAY == 0.03)%Q) /\
  (delay = None -> dk = KEY_PRESS_DELAY /\ dm = MOUSE_BUTTON_DELAY) /\
  (forall d, delay = Some d -> (d == 0)%Q ->
             dk = KEY_PRESS_DELAY /\ dm = MOUSE_BUTTON_DELAY) /\
  (forall d, delay = Some d -> ~ (d == 0)%Q -> dk = d /\ dm = d) /\
  (accepted_delay delay ->
     sleep_verdict (time_sleep_rejects P) dk = None /\
     sleep_verdict (time_sleep_rejects P) dm = None /\
     (0 < dk)%Q /\ (0 < dm)%Q) /\
  (forall d, delay = Some d -> (d < 0)%Q ->
     exists e, sleep_verdict (time_sleep_rejects P) dk = Some e /\
               sleep_verdict (time_sleep_rejects P) dm = Some e) /\
  (forall d, delay = Some d -> (d < 0)%Q -> (- COMMON_SLEEP <= d)%Q ->
     sleep_verdict (time_sleep_rejects P) dk = Some ValueError /\
     sleep_verdict (time_sleep_rejects P) dm = Some ValueError).
Proof.
  intros _ Hk Hb dk dm settle.
  assert (Hnonzero : forall d default, ~ (d == 0)%Q -> or_default (Some d) default = d).
  { intros d default Hd. simpl. destruct (Qeq_bool d 0) eqn:E; [|reflexivity].
    apply Qeq_bool_iff in E. contradiction. }
  assert (Hneg : forall d, (d < 0)%Q -> ~ (d == 0)%Q).
  { intros d Hd Heq. rewrite Heq in Hd. discriminate Hd. }
  split; [|split; [|split; [|split; [|split; [|split; [|split]]]]]].
  - split; [|split; [|split]].
    + rewrite (key_down_known P key kcode) by exact Hk. apply send_then_sleep.
    + rewrite (key_up_known P key kcode) by exact Hk. apply send_then_sleep.
    + rewrite mouse_down_known by exact Hb. apply send_then_sleep.
    + rewrite mouse_up_known by exact Hb. apply send_then_sleep.
  - split; reflexivity.
  - intros ->. split; reflexivity.
  - intros d -> Hd. subst dk dm. simpl. apply Qeq_bool_iff in Hd. rewrite Hd.
    split; reflexivity.
  - intros d -> Hd. subst dk dm. rewrite !Hnonzero by exact Hd. split; reflexivity.
  - intros Hacc. split; [|split; [|split]].
    + apply sleep_verdict_common, or_default_common;
        [apply key_press_delay_common|exact Hacc].
    + apply sleep_verdict_common, or_default_common;
        [apply mouse_button_delay_common|exact Hacc].
    + apply or_default_positive; [apply key_press_delay_positive|exact Hacc].
    + apply or_default_positive; [apply mouse_button_delay_positive|exact Hacc].
  - intros d -> Hd. subst dk dm. rewrite !Hnonzero by (apply Hneg, Hd).
    destruct (sleep_verdict_negative (time_sleep_rejects P) d Hd) as [e He].
    exists e. split; exact He.
  - intros d -> Hd Hlow. subst dk dm. rewrite !Hnonzero by (apply Hneg, Hd).
    split; apply sleep_verdict_small_negative; assumption.
Qed.

End SettleDelay.

Lemma settle_delay_after_stroke_witness :
  Inputs.key_down sample_platform true "A" (Some 0%Q) []
  = Some (Ret tt, [ESend 1 (Key (mkKeyStroke 0x1E 0 0)); ESleep 0.025]).
Proof.
  assert (Ha : ascii_text "A") by (vm_compute; tauto).
  assert (Hk : KEYBOARD_MAPPING sample_platform !! lower "A" = Some 0x1E)
    by (vm_compute; reflexivity).
  assert (Hb : "left" ∈ Inputs._SUPPORTED_BUTTONS) by (vm_compute; reflexivity).
  exact (proj1 (proj1 (settle_delay_after_stroke sample_platform "A" "left" 0x1E
                         (Some 0%Q) [] Ha Hk Hb))).
Defined.

(** With a negative delay the stroke is sent, [time.sleep] refuses the
    length and no delay follows the stroke. *)
Lemma negative_delay_leaves_no_settle :
  Inputs.key_down sample_platform true "a" (Some (-1 # 1)%Q) []
  = Some (Raise ValueError, [ESend 1 (Key (mkKeyStroke 0x1E 0 0))]) /\
  forall d, ~ In (ESleep d) [ESend 1 (Key (mkKeyStroke 0x1E 0 0))].
Proof.
  split; [vm_compute; reflexivity|].
  intros d [Hin|[]]. discriminate Hin.
Qed.

(** ** Sequencing *)

Section Sequencing.
Context {S A B : Type}.

Lemma bind_returns (m : M S A) (k : A -> M S B) (s s' : S) (a : A) :
  m s = Some (Ret a, s') -> bind m k s = k a s'.
Proof. intros Hm. unfold bind. rewrite Hm. reflexivity. Qed.

Lemma bind_raises (m : M S A) (k : A -> M S B) (s s' : S) (e : exn) :
  m s = Some (Raise e, s') -> bind m k s = Some (Raise e, s').
Proof. intros Hm. unfold bind. rewrite Hm. reflexivity. Qed.

End Sequencing.

Lemma repeat_times_raises (n : nat) (body : M (list event) unit)
    (e : exn) (w w' : list event) :
  (0 < n)%nat -> body w = Some (Raise e, w') ->
  repeat_times n body w = Some (Raise e, w').
Proof.
  intros Hn Hbody. destruct n as [|n]; [lia|].
  simpl. apply bind_raises, Hbody.
Qed.

Lemma repeat_times_appends (n : nat) (body : M (list event) unit)
    (each : list event) :
  (forall w, body w = Some (Ret tt, w ++ each)) ->
  forall w, repeat_times n body w = Some (Ret tt, w ++ concat (replicate n each)).
Proof.
  intros Hbody. induction n as [|n IH]; intros w; simpl.
  - rewrite app_nil_r. reflexivity.
  - rewrite (bind_returns _ _ _ _ _ (Hbody w)). rewrite IH.
    rewrite <- app_assoc. reflexivity.
Qed.

(** ** Repeated clicks and presses *)

Section Clicks.
Import Inputs.
Variable P : Platform.

Lemma mouse_down_default (button : string) (w : list event) :
  button ∈ _SUPPORTED_BUTTONS ->
  mouse_down P true button None w
  = Some (Ret tt, w ++ [ESend mouse (button_stroke_down P button);
                        ESleep MOUSE_BUTTON_DELAY]).
Proof.
  intros Hb. rewrite mouse_down_known by exact Hb.
  unfold or_default. rewrite sleep_common by apply mouse_button_delay_common.
  rewrite <- app_assoc. reflexivity.
Qed.

Lemma mouse_up_default (button : string) (w : list event) :
  button ∈ _SUPPORTED_BUTTONS ->
  mouse_up P true button None w
  = Some (Ret tt, w ++ [ESend mouse (button_stroke_up P button);
                        ESleep MOUSE_BUTTON_DELAY]).
Proof.
  intros Hb. rewrite mouse_up_known by exact Hb.
  unfold or_default. rewrite sleep_common by apply mouse_button_delay_common.
  rewrite <- app_assoc. reflexivity.
Qed.

Lemma key_down_default (key : string) (kcode : Z) (w : list event) :
  KEYBOARD_MAPPING P !! lower key = Some kcode ->
  key_down P true key None w
  = Some (Ret tt, w ++ [ESend keyboard (key_stroke_down P kcode);
                        ESleep KEY_PRESS_DELAY]).
Proof.
  intros Hk. rewrite (key_down_known P key kcode) by exact Hk.
  unfold or_default. rewrite sleep_common by apply key_press_delay_common.
  rewrite <- app_assoc. reflexivity.
Qed.

Lemma key_up_default (key : string) (kcode : Z) (w : list event) :
  KEYBOARD_MAPPING P !! lower key = Some kcode ->
  key_up P true key None w
  = Some (Ret tt, w ++ [ESend keyboard (key_stroke_up P kcode);
                        ESleep KEY_PRESS_DELAY]).
Proof.
  intros Hk. rewrite (key_up_known P key kcode) by exact Hk.
  unfold or_default. rewrite sleep_common by apply key_press_delay_common.
  rewrite <- app_assoc. reflexivity.
Qed.

(** Several clicks in place: every iteration ends with the interval. *)
Lemma click_repeated (button : string) (clicks : Z) (interval delay : Q)
    (w : list event) :
  button ∈ _SUPPORTED_BUTTONS -> 1 < clicks ->
  sleep_verdict (time_sleep_rejects P) interval = None ->
  click P true None None button clicks interval delay w
  = Some (Ret tt,
          w ++ concat (replicate (Z.to_nat clicks)
                         (click_pair P button ++ [ESleep interval]))).
Proof.
  intros Hb Hn Hi. unfold click, requires_driver.
  rewrite (bind_returns _ _ _ _ _ (check_button_known button w Hb)).
  rewrite (bind_returns _ _ w w tt) by reflexivity.
  unfold for_range. apply repeat_times_appends. intros w'.
  rewrite (bind_returns _ _ _ _ _ (mouse_down_default button w' Hb)).
  rewrite (bind_returns _ _ _ _ _ (mouse_up_default button _ Hb)).
  assert (Hlt : (1 <? clicks) = true) by (apply Z.ltb_lt; exact Hn).
  rewrite Hlt. rewrite sleep_slept by exact Hi.
  unfold click_pair. rewrite <- !app_assoc. reflexivity.
Qed.

(** C3 (amended): [click(button="left", clicks=3, interval=0.1)] sends
    exactly three left-button down/up pairs; after every pair, the last
    one included, it sleeps the interval, so the interval is slept three
    times and consecutive clicks are 0.03 + 0.1 apart. *)
Theorem click_three_times (delay : Q) (w : list event) :
  let each := click_pair P "left" ++ [ESleep 0.1] in
  click P true None None "left" 3 0.1 delay w
    = Some (Ret tt, w ++ each ++ each ++ each) /\
  strokes (each ++ each ++ each)
    = [(mouse, button_stroke_down P "left"); (mouse, button_stroke_up P "left");
       (mouse, button_stroke_down P "left"); (mouse, button_stroke_up P "left");
       (mouse, button_stroke_down P "left"); (mouse, button_stroke_up P "left")] /\
  sleeps_of 0.1 (each ++ each ++ each) = 3%nat /\
  Forall2 Qeq (pauses (each ++ each ++ each)) [0.03; 0.13; 0.03; 0.13; 0.03; 0.13]%Q.
Proof.
  intros each. split; [|split; [reflexivity|split; [reflexivity|]]].
  - rewrite click_repeated;
      [|vm_compute; reflexivity|lia|apply sleep_verdict_common; split; discriminate].
    reflexivity.
  - repeat constructor.
Qed.

End Clicks.

(** The call of the claim sleeps the interval three times, and the last
    of them comes after the final down/up pair. *)
Lemma click_sleeps_after_last_pair :
  exists w,
    Inputs.click sample_platform true None None "left" 3 0.1 0.3 [] = Some (Ret tt, w) /\
    Inputs.sleeps_of 0.1 w = 3%nat /\
    last w = Some (ESleep 0.1) /\
    ~ (Inputs.sleeps_of 0.1 w = 2%nat).
Proof.
  eexists. split; [vm_compute; reflexivity|].
  split; [reflexivity|]. split; [reflexivity|]. discriminate.
Qed.

(** ** Name validation *)

Lemma lower_ascii_idempotent (c : ascii) : lower_ascii (lower_ascii c) = lower_ascii c.
Proof. destruct c as [[] [] [] [] [] [] [] []]; reflexivity. Qed.

Lemma lower_idempotent (s : string) : lower (lower s) = lower s.
Proof.
  induction s as [|c s IH]; simpl; [reflexivity|].
  rewrite lower_ascii_idempotent, IH. reflexivity.
Qed.

Lemma lower_append (s t : string) :
  lower (String.append s t) = String.append (lower s) (lower t).
Proof.
  induction s as [|c s IH]; simpl; [reflexivity|]. rewrite IH. reflexivity.
Qed.

Section Validation.
Import Inputs.
Variable P : Platform.

Lemma press_unknown (key : string) (presses : Z) (interval : Q) (w : list event) :
  KEYBOARD_MAPPING P !! lower key = None ->
  press P true key presses interval w = Some (Raise (UnknownKeyError (lower key)), w).
Proof.
  intros Hk. unfold press, requires_driver, bind, _check_key_exists, _SUPPORTED_KEYS.
  rewrite Hk. reflexivity.
Qed.

(** A supported key: every iteration sends the pair, and the interval
    follows it when there are several presses. *)
Lemma press_supported (key : string) (kcode presses : Z) (interval : Q)
    (w : list event) :
  KEYBOARD_MAPPING P !! lower key = Some kcode ->
  (1 < presses -> sleep_verdict (time_sleep_rejects P) interval = None) ->
  press P true key presses interval w
  = Some (Ret tt,
          w ++ concat (replicate (Z.to_nat presses)
                         (press_pair P kcode
                          ++ if 1 <? presses then [ESleep interval] else []))).
Proof.
  intros Hk Hi. unfold press, requires_driver.
  assert (Hcheck : _check_key_exists P (lower key) w = Some (Ret tt, w))
    by (unfold _check_key_exists, _SUPPORTED_KEYS; rewrite Hk; reflexivity).
  rewrite (bind_returns _ _ _ _ _ Hcheck).
  assert (Hk' : KEYBOARD_MAPPING P !! lower (lower key) = Some kcode)
    by (rewrite lower_idempotent; exact Hk).
  unfold for_range. apply repeat_times_appends. intros w'.
  rewrite (bind_returns _ _ _ _ _ (key_down_default P (lower key) kcode w' Hk')).
  rewrite (bind_returns _ _ _ _ _ (key_up_default P (lower key) kcode _ Hk')).
  unfold press_pair. destruct (Z.ltb_spec 1 presses) as [Hlt|Hge].
  - rewrite sleep_slept by (apply Hi; exact Hlt).
    rewrite <- !app_assoc. reflexivity.
  - unfold ret. rewrite app_nil_r, <- !app_assoc. reflexivity.
Qed.

(** Several presses with an interval that [time.sleep] rejects: the
    first pair is sent, then the exception ends the call. *)
Lemma press_rejected (key : string) (kcode presses : Z) (interval : Q)
    (e : exn) (w : list event) :
  KEYBOARD_MAPPING P !! lower key = Some kcode ->
  1 < presses ->
  sleep_verdict (time_sleep_rejects P) interval = Some e ->
  press P true key presses interval w = Some (Raise e, w ++ press_pair P kcode).
Proof.
  intros Hk Hn Hv. unfold press, requires_driver.
  assert (Hcheck : _check_key_exists P (lower key) w = Some (Ret tt, w))
    by (unfold _check_key_exists, _SUPPORTED_KEYS; rewrite Hk; reflexivity).
  rewrite (bind_returns _ _ _ _ _ Hcheck).
  assert (Hk' : KEYBOARD_MAPPING P !! lower (lower key) = Some kcode)
    by (rewrite lower_idempotent; exact Hk).
  unfold for_range. apply repeat_times_raises; [lia|].
  rewrite (bind_returns _ _ _ _ _ (key_down_default P (lower key) kcode w Hk')).
  rewrite (bind_returns _ _ _ _ _ (key_up_default P (lower key) kcode _ Hk')).
  assert (Hlt : (1 <? presses) = true) by (apply Z.ltb_lt; exact Hn).
  rewrite Hlt. rewrite (sleep_rejected P interval e) by exact Hv.
  unfold press_pair. rewrite <- !app_assoc. reflexivity.
Qed.

(** A supported key pressed once, as [write] does for each character. *)
Lemma press_once (key : string) (kcode : Z) (interval : Q) (w : list event) :
  KEYBOARD_MAPPING P !! lower key = Some kcode ->
  press P true key 1 interval w = Some (Ret tt, w ++ press_pair P kcode).
Proof.
  intros Hk. rewrite (press_supported key kcode) by (exact Hk || lia).
  reflexivity.
Qed.

Lemma click_unknown (x : option (Z + Z * Z)) (y : option Z) (button : string)
    (clicks : Z) (interval delay : Q) (w : list event) :
  button ∉ _SUPPORTED_BUTTONS ->
  click P true x y button clicks interval delay w
  = Some (Raise (UnknownButtonError button), w).
Proof.
  intros Hb. unfold click, requires_driver.
  apply bind_raises, check_button_unknown, Hb.
Qed.

Lemma hold_mouse_unknown {A} (button : string) (body : M (list event) A)
    (w : list event) :
  button ∉ _SUPPORTED_BUTTONS ->
  hold_mouse P true button body w = Some (Raise (UnknownButtonError button), w).
Proof.
  intros Hb. unfold hold_mouse, requires_driver.
  apply bind_raises, mouse_down_unknown, Hb.
Qed.

Lemma hold_key_unknown {A} (key : string) (body : M (list event) A)
    (w : list event) :
  KEYBOARD_MAPPING P !! lower key = None ->
  hold_key P true key body w = Some (Raise (UnknownKeyError (lower key)), w).
Proof.
  intros Hk. unfold hold_key, requires_driver.
  apply bind_raises, key_down_unknown, Hk.
Qed.

(** [write] on an already lowered text: the characters before the first
    unsupported one are typed, then the error is raised. *)
Lemma write_chars_stops (interval : Q) (pre : string) (c : ascii) (rest : string) :
  sleep_verdict (time_sleep_rejects P) interval = None ->
  lower pre = pre -> lower_ascii c = c ->
  all_supported P pre ->
  KEYBOARD_MAPPING P !! String c EmptyString = None ->
  forall w,
    write_chars P true (String.append pre (String c rest)) interval w
    = Some (Raise (UnknownKeyError (String c EmptyString)), w ++ typed P interval pre).
Proof.
  intros Hi. induction pre as [|ch pre IH]; intros Hlow Hc Hsup Hnone w.
  - cbn [String.append write_chars typed]. rewrite app_nil_r.
    apply bind_raises.
    pose proof (press_unknown (String c EmptyString) 1 (1 # 10) w) as Hpress.
    cbn [lower] in Hpress. rewrite Hc in Hpress. exact (Hpress Hnone).
  - simpl in Hlow. injection Hlow as Hch Hpre.
    destruct Hsup as [[kcode Hk] Hsup].
    change (String.append (String ch pre) (String c rest))
      with (String ch (String.append pre (String c rest))).
    cbn [write_chars typed].
    assert (Hk' : KEYBOARD_MAPPING P !! lower (String ch EmptyString) = Some kcode)
      by (simpl; rewrite Hch; exact Hk).
    rewrite (bind_returns _ _ _ _ _ (press_once _ kcode _ w Hk')).
    rewrite (bind_returns _ _ _ _ _ (sleep_slept P interval _ Hi)).
    rewrite IH by assumption. rewrite Hk.
    rewrite <- !app_assoc. reflexivity.
Qed.

(** [write] on an already lowered text that starts with an unsupported
    character: the error comes before any event. *)
Lemma write_chars_first_unknown (interval : Q) (c : ascii) (rest : string)
    (w : list event) :
  lower_ascii c = c ->
  KEYBOARD_MAPPING P !! String c EmptyString = None ->
  write_chars P true (String c rest) interval w
  = Some (Raise (UnknownKeyError (String c EmptyString)), w).
Proof.
  intros Hc Hnone. cbn [write_chars]. apply bind_raises.
  pose proof (press_unknown (String c EmptyString) 1 (1 # 10) w) as Hpress.
  cbn [lower] in Hpress. rewrite Hc in Hpress. exact (Hpress Hnone).
Qed.

(** [write] on an already lowered text with an interval that
    [time.sleep] rejects: the first character is typed, then the
    exception ends the call, whatever follows in the text. *)
Lemma write_chars_rejected (interval : Q) (ch : ascii) (rest : string)
    (kcode : Z) (e : exn) (w : list event) :
  sleep_verdict (time_sleep_rejects P) interval = Some e ->
  lower_ascii ch = ch ->
  KEYBOARD_MAPPING P !! String ch EmptyString = Some kcode ->
  write_chars P true (String ch rest) interval w
  = Some (Raise e, w ++ press_pair P kcode).
Proof.
  intros Hv Hch Hk. cbn [write_chars].
  assert (Hk' : KEYBOARD_MAPPING P !! lower (String ch EmptyString) = Some kcode)
    by (simpl; rewrite Hch; exact Hk).
  rewrite (bind_returns _ _ _ _ _ (press_once _ kcode _ w Hk')).
  apply bind_raises, sleep_rejected, Hv.
Qed.

End Validation.

Lemma lower_fixed_prefix (pre t : string) :
  lower (String.append pre t) = String.append pre t ->
  lower pre = pre /\ lower t = t.
Proof.
  induction pre as [|ch pre IH]; intros Heq.
  - split; [reflexivity|exact Heq].
  - change (String.append (String ch pre) t)
      with (String ch (String.append pre t)) in Heq.
    cbn [lower] in Heq. injection Heq as Hch Hrest.
    destruct (IH Hrest) as [Hpre Ht].
    split; [cbn [lower]; rewrite Hch, Hpre; reflexivity|exact Ht].
Qed.

Section ValidationClaims.
Import Inputs.
Variable P : Platform.

(** C2 (amended): with the driver installed, [press], [key_down],
    [key_up] and [hold_key] on an ASCII key name whose lowered form is
    not in the table, and [click], [mouse_down], [mouse_up] and
    [hold_mouse] on a button that is not in the supported set, raise the
    error without a single event.  [write] validates character by
    character.  For an ASCII term whose first unsupported character is
    [c]: when [c] comes first, [UnknownKeyError] is raised without a
    single event; when [time.sleep] accepts the interval (as it does
    from zero to 4294967 seconds), the characters before [c] are typed,
    each followed by the interval, then [UnknownKeyError] is raised and
    nothing is sent for [c] or the characters after it; when
    [time.sleep] rejects the interval (as it does every negative one)
    and [c] does not come first, the first character is pressed and
    released and the call ends with the exception of [time.sleep]. *)
Theorem validation_precedes_strokes (key button term pre rest : string)
    (c : ascii) (interval : Q) (w : list event) :
  ascii_text key -> ascii_text term ->
  KEYBOARD_MAPPING P !! lower key = None ->
  button ∉ _SUPPORTED_BUTTONS ->
  lower term = String.append pre (String c rest) ->
  all_supported P pre ->
  KEYBOARD_MAPPING P !! String c EmptyString = None ->
  (forall presses gap,
      press P true key presses gap w = Some (Raise (UnknownKeyError (lower key)), w)) /\
  (forall delay,
      key_down P true key delay w = Some (Raise (UnknownKeyError (lower key)), w) /\
      key_up P true key delay w = Some (Raise (UnknownKeyError (lower key)), w)) /\
  (forall (A : Type) (body : M (list event) A),
      hold_key P true key body w = Some (Raise (UnknownKeyError (lower key)), w)) /\
  (forall x y clicks gap delay,
      click P true x y button clicks gap delay w
      = Some (Raise (UnknownButtonError button), w)) /\
  (forall delay,
      mouse_down P true button delay w = Some (Raise (UnknownButtonError button), w) /\
      mouse_up P true button delay w = Some (Raise (UnknownButtonError button), w)) /\
  (forall (A : Type) (body : M (list event) A),
      hold_mouse P true button body w = Some (Raise (UnknownButtonError button), w)) /\
  (pre = EmptyString ->
   write P true term interval w
   = Some (Raise (UnknownKeyError (String c EmptyString)), w)) /\
  (sleep_verdict (time_sleep_rejects P) interval = None ->
   write P true term interval w
   = Some (Raise (UnknownKeyError (String c EmptyString)), w ++ typed P interval pre)) /\
  (forall e ch pre' kcode,
      sleep_verdict (time_sleep_rejects P) interval = Some e ->
      pre = String ch pre' ->
      KEYBOARD_MAPPING P !! String ch EmptyString = Some kcode ->
      write P true term interval w = Some (Raise e, w ++ press_pair P kcode)) /\
  (common_length interval -> sleep_verdict (time_sleep_rejects P) interval = None) /\
  ((interval < 0)%Q ->
   exists e, sleep_verdict (time_sleep_rejects P) interval = Some e).
Proof.
  intros _ _ Hkey Hbutton Hterm Hsup Hc.
  assert (Hfixed : lower (String.append pre (String c rest))
                   = String.append pre (String c rest))
    by (rewrite <- Hterm; apply lower_idempotent).
  destruct (lower_fixed_prefix _ _ Hfixed) as [Hpre Htail].
  cbn [lower] in Htail. injection Htail as Hch _.
  repeat match goal with |- _ /\ _ => split end; intros;
    repeat match goal with |- _ /\ _ => split end.
  - apply press_unknown, Hkey.
  - apply key_down_unknown, Hkey.
  - apply key_up_unknown, Hkey.
  - apply hold_key_unknown, Hkey.
  - apply click_unknown, Hbutton.
  - apply mouse_down_unknown, Hbutton.
  - apply mouse_up_unknown, Hbutton.
  - apply hold_mouse_unknown, Hbutton.
  - unfold write, requires_driver. rewrite Hterm. subst pre.
    apply write_chars_first_unknown; assumption.
  - unfold write, requires_driver. rewrite Hterm.
    apply write_chars_stops; assumption.
  - unfold write, requires_driver. rewrite Hterm. subst pre.
    cbn [lower] in Hpre. injection Hpre as Hlow _.
    apply write_chars_rejected; assumption.
  - apply sleep_verdict_common. assumption.
  - apply sleep_verdict_negative. assumption.
Qed.

End ValidationClaims.

Lemma validation_precedes_strokes_witness :
  Inputs.write sample_platform true "a?" 0.05 []
  = Some (Raise (UnknownKeyError "?"),
          [] ++ Inputs.typed sample_platform 0.05 "a").
Proof.
  refine (proj1 (proj2 (proj2 (proj2 (proj2 (proj2 (proj2 (proj2
    (validation_precedes_strokes sample_platform "foo" "LEFT" "a?" "a" ""
       "?"%char 0.05 [] _ _ _ _ _ _ _)))))))) _).
  - vm_compute; tauto.
  - vm_compute; tauto.
  - vm_compute; reflexivity.
  - vm_compute. intros Hin. discriminate Hin.
  - reflexivity.
  - simpl. split; [|exact I]. exists 0x1E. vm_compute; reflexivity.
  - vm_compute; reflexivity.
  - vm_compute; reflexivity.
Defined.

(** [write("a?")] has pressed and released "a" by the time it rejects "?". *)
Lemma write_sends_before_failing :
  exists w,
    Inputs.write sample_platform true "a?" 0.05 []
    = Some (Raise (UnknownKeyError "?"), w) /\
    Inputs.strokes w
    = [(1, Key (mkKeyStroke 0x1E 0 0)); (1, Key (mkKeyStroke 0x1E 1 0))] /\
    KEYBOARD_MAPPING sample_platform !! "?" = None.
Proof.
  eexists. split; [vm_compute; reflexivity|].
  split; vm_compute; reflexivity.
Qed.

Section NameCasing.
Import Inputs.
Variable P : Platform.




(** The letters A-Z are folded, the other ASCII characters are kept. *)
Lemma lower_folds_letters :
  lower "ABCDEFGHIJKLMNOPQRSTUVWXYZ" = "abcdefghijklmnopqrstuvwxyz" /\
  lower "abcdefghijklmnopqrstuvwxyz" = "abcdefghijklmnopqrstuvwxyz" /\
  lower "0123456789 @[`{~_-+=" = "0123456789 @[`{~_-+=".
Proof. repeat split. Qed.


End NameCasing.



(** ** The loops over a simulated stream *)

Section MockSteps.
Import DeviceRegistry Mock EventLoops Streams.

Lemma wait_head (d : Z) (s : stroke) (rest snt : list (Z * stroke))
    (flt : gmap Z Z) :
  wait (mkContext ((d, s) :: rest) snt flt false)
  = Some (Ret d, mkContext ((d, s) :: rest) snt flt false).
Proof. reflexivity. Qed.

Lemma receive_head (d : Z) (s : stroke) (rest snt : list (Z * stroke))
    (flt : gmap Z Z) :
  receive d (mkContext ((d, s) :: rest) snt flt false)
  = Some (Ret s, mkContext rest snt flt false).
Proof.
  cbn. unfold mock_receive. cbn. rewrite Z.eqb_refl. reflexivity.
Qed.

Lemma send_in_range (d : Z) (s : stroke) (q snt : list (Z * stroke))
    (flt : gmap Z Z) :
  is_valid d = true ->
  send d s (mkContext q snt flt false)
  = Some (Ret tt, mkContext q (snt ++ [(d, s)]) flt false).
Proof.
  intros Hd. cbn. unfold mock_send. cbn. rewrite Hd. reflexivity.
Qed.

Lemma keyboard_iteration_forwards (d : Z) (s : stroke)
    (rest snt : list (Z * stroke)) (flt : gmap Z Z) :
  keyboard_passes (d, s) = true ->
  keyboard_iteration (mkContext ((d, s) :: rest) snt flt false)
  = Some (Ret None, mkContext rest (snt ++ [(d, s)]) flt false).
Proof.
  unfold keyboard_passes. cbn [fst snd]. intros Hpass.
  apply andb_true_iff in Hpass as [Hd Hs].
  destruct s as [k|m]; [|discriminate Hs]. cbn in Hs.
  unfold keyboard_iteration.
  rewrite (bind_returns _ _ _ _ _ (wait_head d (Key k) rest snt flt)).
  rewrite (bind_returns _ _ _ _ _ (receive_head d (Key k) rest snt flt)).
  cbn [stroke_code]. rewrite (bind_returns _ _ _ _ (code k)) by reflexivity.
  apply negb_true_iff in Hs. rewrite Hs.
  rewrite (bind_returns _ _ _ _ _ (send_in_range d (Key k) rest snt flt Hd)).
  reflexivity.
Qed.

Lemma keyboard_iteration_escape (d : Z) (k : KeyStroke)
    (rest snt : list (Z * stroke)) (flt : gmap Z Z) :
  code k = 0x01 ->
  keyboard_iteration (mkContext ((d, Key k) :: rest) snt flt false)
  = Some (Ret (Some d), mkContext rest snt flt false).
Proof.
  intros Hk. unfold keyboard_iteration.
  rewrite (bind_returns _ _ _ _ _ (wait_head d (Key k) rest snt flt)).
  rewrite (bind_returns _ _ _ _ _ (receive_head d (Key k) rest snt flt)).
  cbn [stroke_code]. rewrite (bind_returns _ _ _ _ (code k)) by reflexivity.
  rewrite Hk. reflexivity.
Qed.

Lemma mouse_iteration_forwards (d : Z) (s : stroke)
    (rest snt : list (Z * stroke)) (flt : gmap Z Z) :
  mouse_passes (d, s) = true ->
  mouse_iteration (mkContext ((d, s) :: rest) snt flt false)
  = Some (Ret None, mkContext rest (snt ++ [(d, s)]) flt false).
Proof.
  unfold mouse_passes. cbn [fst snd]. intros Hpass.
  apply andb_true_iff in Hpass as [Hd Hs].
  unfold mouse_iteration.
  rewrite (bind_returns _ _ _ _ _ (wait_head d s rest snt flt)).
  rewrite (bind_returns _ _ _ _ _ (receive_head d s rest snt flt)).
  destruct (is_keyboard d).
  - destruct s as [k|m]; [|discriminate Hs]. cbn in Hs.
    apply negb_true_iff in Hs.
    cbn [stroke_code].
    rewrite (bind_returns _ _ _ _ false)
      by (rewrite (bind_returns _ _ _ _ (code k)) by reflexivity;
          rewrite Hs; reflexivity).
    rewrite (bind_returns _ _ _ _ _ (send_in_range d (Key k) rest snt flt Hd)).
    reflexivity.
  - rewrite (bind_returns _ _ _ _ false) by reflexivity.
    rewrite (bind_returns _ _ _ _ _ (send_in_range d s rest snt flt Hd)).
    reflexivity.
Qed.

Lemma mouse_iteration_escape (d : Z) (k : KeyStroke)
    (rest snt : list (Z * stroke)) (flt : gmap Z Z) :
  is_keyboard d = true -> code k = 0x01 ->
  mouse_iteration (mkContext ((d, Key k) :: rest) snt flt false)
  = Some (Ret (Some d), mkContext rest snt flt false).
Proof.
  intros Hd Hk. unfold mouse_iteration.
  rewrite (bind_returns _ _ _ _ _ (wait_head d (Key k) rest snt flt)).
  rewrite (bind_returns _ _ _ _ _ (receive_head d (Key k) rest snt flt)).
  rewrite Hd. cbn [stroke_code].
  rewrite (bind_returns _ _ _ _ true)
    by (rewrite (bind_returns _ _ _ _ (code k)) by reflexivity;
        rewrite Hk; reflexivity).
  reflexivity.
Qed.

End MockSteps.

Section MockLoops.
Import DeviceRegistry Mock EventLoops Streams.

(** A loop body that forwards every stroke of [pre] and returns on the
    next one runs through [pre], sends it back in order and stops. *)
Lemma loop_runs_to_escape (body : M context (option Z))
    (passes : Z * stroke -> bool) (d : Z) (k : KeyStroke)
    (post : list (Z * stroke)) (flt : gmap Z Z) :
  (forall e rest snt, passes e = true ->
      body (mkContext (e :: rest) snt flt false)
      = Some (Ret None, mkContext rest (snt ++ [e]) flt false)) ->
  (forall snt,
      body (mkContext ((d, Key k) :: post) snt flt false)
      = Some (Ret (Some d), mkContext post snt flt false)) ->
  forall (pre snt : list (Z * stroke)) (fuel : nat),
    Forall (fun e => passes e = true) pre ->
    (length pre < fuel)%nat ->
    while_true fuel body (mkContext (pre ++ (d, Key k) :: post) snt flt false)
    = Some (Ret d, mkContext post (snt ++ pre) flt false).
Proof.
  intros Hforward Hescape pre.
  induction pre as [|e pre IH]; intros snt fuel Hpre Hfuel.
  - destruct fuel as [|fuel]; [inversion Hfuel|].
    cbn [while_true app]. rewrite (bind_returns _ _ _ _ _ (Hescape snt)).
    rewrite app_nil_r. reflexivity.
  - destruct fuel as [|fuel]; [inversion Hfuel|].
    inversion Hpre as [|? ? He Hrest]; subst.
    cbn [while_true]. rewrite <- app_comm_cons.
    rewrite (bind_returns _ _ _ _ _ (Hforward e _ snt He)).
    rewrite IH; [|exact Hrest|simpl in Hfuel; lia].
    rewrite <- app_assoc. reflexivity.
Qed.

Lemma keyboard_loop_on_stream (mask : Z) (pre post : list (Z * stroke))
    (d : Z) (k : KeyStroke) (fuel : nat) :
  Forall (fun e => keyboard_passes e = true) pre ->
  code k = 0x01 ->
  (length pre < fuel)%nat ->
  (lift (set_filter is_keyboard mask) ;;
   try_finally (while_true fuel keyboard_iteration) (lift _destroy_context))
    (fresh (pre ++ (d, Key k) :: post))
  = Some (Ret d,
          mkContext post pre
            (filters (mock_set_filter is_keyboard mask (fresh []))) true).
Proof.
  intros Hpre Hk Hfuel.
  unfold bind, lift, try_finally. cbn [set_filter mock_context].
  unfold mock_set_filter at 1, fresh at 1. cbn [pending sent closed filters].
  rewrite (loop_runs_to_escape keyboard_iteration keyboard_passes d k post);
    [reflexivity| | |exact Hpre|exact Hfuel].
  - intros [d' s'] rest snt He. apply keyboard_iteration_forwards, He.
  - intros snt. apply keyboard_iteration_escape, Hk.
Qed.

Lemma mouse_loop_on_stream (mouse_mask key_mask : Z)
    (pre post : list (Z * stroke)) (d : Z) (k : KeyStroke) (fuel : nat) :
  Forall (fun e => mouse_passes e = true) pre ->
  is_keyboard d = true -> code k = 0x01 ->
  (length pre < fuel)%nat ->
  (lift (set_filter is_mouse mouse_mask) ;;
   lift (set_filter is_keyboard key_mask) ;;
   try_finally (while_true fuel mouse_iteration) (lift _destroy_context))
    (fresh (pre ++ (d, Key k) :: post))
  = Some (Ret d,
          mkContext post pre
            (filters (mock_set_filter is_keyboard key_mask
                        (mock_set_filter is_mouse mouse_mask (fresh [])))) true).
Proof.
  intros Hpre Hd Hk Hfuel.
  unfold bind, lift, try_finally. cbn [set_filter mock_context].
  unfold mock_set_filter at 1 2, fresh at 1. cbn [pending sent closed filters].
  rewrite (loop_runs_to_escape mouse_iteration mouse_passes d k post);
    [reflexivity| | |exact Hpre|exact Hfuel].
  - intros [d' s'] rest snt He. apply mouse_iteration_forwards, He.
  - intros snt. apply mouse_iteration_escape; assumption.
Qed.

End MockLoops.

Section EscapeClaims.
Import DeviceRegistry Mock EventLoops Streams.
Variable P : Platform.

(** The first Escape of a key stream that ends with one. *)
Lemma first_escape (s : list (Z * KeyStroke)) (final : Z * KeyStroke) :
  code (snd final) = 0x01 ->
  exists pre e post,
    s ++ [final] = pre ++ e :: post /\
    code (snd e) = 0x01 /\
    Forall (fun x => code (snd x) <> 0x01) pre /\
    (exists tail, s = pre ++ tail) /\
    (Forall (fun x => code (snd x) <> 0x01) s ->
     pre = s /\ e = final /\ post = []).
Proof.
  intros Hfinal. induction s as [|a s IH].
  - exists [], final, []. split; [reflexivity|]. split; [exact Hfinal|].
    split; [constructor|]. split; [exists []; reflexivity|].
    intros _. repeat split.
  - destruct (Z.eq_dec (code (snd a)) 0x01) as [Ha|Ha].
    + exists [], a, (s ++ [final]). split; [reflexivity|]. split; [exact Ha|].
      split; [constructor|]. split; [exists (a :: s); reflexivity|].
      intros Hall. apply Forall_cons in Hall as [Hne _]. contradiction.
    + destruct IH as (pre & e & post & Heq & He & Hpre & [tail Htail] & Hall).
      exists (a :: pre), e, post.
      split; [simpl; rewrite Heq; reflexivity|]. split; [exact He|].
      split; [constructor; assumption|].
      split; [exists tail; simpl; rewrite <- Htail; reflexivity|].
      intros Hs. apply Forall_cons in Hs as [_ Hs].
      destruct (Hall Hs) as (Hp & Hf & Hq).
      split; [rewrite Hp; reflexivity|]. split; assumption.
Qed.

Lemma surfaced_passes (keys : list (Z * KeyStroke)) :
  Forall (fun e => is_valid (fst e) = true) keys ->
  Forall (fun x => code (snd x) <> 0x01) keys ->
  Forall (fun e => keyboard_passes e = true) (surfaced keys).
Proof.
  intros Hvalid Hcode. unfold surfaced. apply Forall_map.
  induction keys as [|a keys IH]; [constructor|].
  inversion Hvalid; subst. inversion Hcode; subst.
  constructor; [|apply IH; assumption].
  unfold keyboard_passes. cbn [fst snd ordinary_key].
  apply andb_true_iff. split; [assumption|].
  apply negb_true_iff, Z.eqb_neq. assumption.
Qed.

(** C4: on a simulated stream of key strokes from devices in range that
    ends with an Escape key-down, [capture_keyboard] returns (for every
    fuel that covers the stream): it returns the device of the first
    stroke with code 1, has sent back exactly the strokes before it,
    leaves every stroke after it pending and untouched, and has closed
    the context.  When the final Escape is the only one, that device is
    the one that produced it. *)
Theorem capture_keyboard_returns_on_escape (s : list (Z * KeyStroke))
    (d info : Z) (fuel : nat) :
  let stream := s ++ [(d, mkKeyStroke 0x01 (KEY_DOWN P) info)] in
  Forall (fun e => is_valid (fst e) = true) s ->
  (length stream <= fuel)%nat ->
  exists pre d' k post c',
    stream = pre ++ (d', k) :: post /\
    code k = 0x01 /\
    Forall (fun x => code (snd x) <> 0x01) pre /\
    capture_keyboard P true fuel (fresh (surfaced stream)) = Some (Ret d', c') /\
    sent c' = surfaced pre /\
    pending c' = surfaced post /\
    closed c' = true /\
    (Forall (fun x => code (snd x) <> 0x01) s -> pre = s /\ d' = d /\ post = []).
Proof.
  intros stream Hvalid Hfuel.
  destruct (first_escape s (d, mkKeyStroke 0x01 (KEY_DOWN P) info) eq_refl)
    as (pre & [d' k] & post & Heq & Hk & Hpre & [tail Htail] & Hall).
  cbn [snd] in Hk.
  assert (Hvalid_pre : Forall (fun e => is_valid (fst e) = true) pre)
    by (rewrite Htail in Hvalid; apply Forall_app in Hvalid; tauto).
  assert (Hlen : (length (surfaced pre) < fuel)%nat).
  { unfold surfaced. rewrite length_map.
    assert (Hl : length stream = length (pre ++ (d', k) :: post))
      by (unfold stream; rewrite Heq; reflexivity).
    rewrite length_app in Hl. simpl in Hl. lia. }
  eexists pre, d', k, post, _.
  split; [exact Heq|]. split; [exact Hk|]. split; [exact Hpre|].
  split.
  - unfold capture_keyboard, requires_driver. unfold stream. rewrite Heq.
    unfold surfaced at 1. rewrite map_app. cbn [map fst snd].
    apply keyboard_loop_on_stream;
      [apply surfaced_passes; assumption|exact Hk|exact Hlen].
  - cbn [sent pending closed].
    split; [reflexivity|]. split; [reflexivity|]. split; [reflexivity|].
    intros Hs. destruct (Hall Hs) as (Hp & Hf & Hq).
    injection Hf as Hd _. repeat split; assumption.
Qed.

End EscapeClaims.

Lemma capture_keyboard_returns_on_escape_witness :
  exists pre d' k post c',
    [(1, mkKeyStroke 0x1E 0 0); (2, mkKeyStroke 0x01 0 0)]
    = pre ++ (d', k) :: post /\
    code k = 0x01 /\
    Forall (fun x => code (snd x) <> 0x01) pre /\
    EventLoops.capture_keyboard sample_platform true 2
      (Mock.fresh (Streams.surfaced
                     [(1, mkKeyStroke 0x1E 0 0); (2, mkKeyStroke 0x01 0 0)]))
    = Some (Ret d', c') /\
    Mock.sent c' = Streams.surfaced pre /\
    Mock.pending c' = Streams.surfaced post /\
    Mock.closed c' = true /\
    (Forall (fun x => code (snd x) <> 0x01) [(1, mkKeyStroke 0x1E 0 0)] ->
     pre = [(1, mkKeyStroke 0x1E 0 0)] /\ d' = 2 /\ post = []).
Proof.
  apply (capture_keyboard_returns_on_escape sample_platform
           [(1, mkKeyStroke 0x1E 0 0)] 2 0 2).
  - repeat constructor.
  - simpl. lia.
Defined.

Section ConsumedEscape.
Import DeviceRegistry Mock EventLoops Streams.
Variable P : Platform.

Lemma escape_not_among_passed (passes : Z * stroke -> bool)
    (pre : list (Z * stroke)) (e : Z * stroke) :
  Forall (fun x => passes x = true) pre -> passes e = false -> e ∉ pre.
Proof.
  intros Hpre He Hin. rewrite Forall_forall in Hpre.
  specialize (Hpre e Hin). rewrite He in Hpre. discriminate Hpre.
Qed.

(** C9: in each of the four loops, on a stream whose strokes up to the
    Escape are all handed back, the loop returns the Escape's device, has
    sent back exactly the earlier strokes in order, and has not sent the
    Escape stroke; what follows it stays pending. *)
Theorem escape_is_consumed (pre_k pre_m post : list (Z * stroke)) (d : Z)
    (k : KeyStroke) (fuel : nat) :
  Forall (fun e => keyboard_passes e = true) pre_k ->
  Forall (fun e => mouse_passes e = true) pre_m ->
  is_keyboard d = true ->
  code k = 0x01 ->
  (length pre_k < fuel)%nat ->
  (length pre_m < fuel)%nat ->
  (exists c',
      capture_keyboard P true fuel (fresh (pre_k ++ (d, Key k) :: post))
      = Some (Ret d, c') /\
      sent c' = pre_k /\ pending c' = post /\ (d, Key k) ∉ sent c') /\
  (exists c',
      listen_to_keyboard P true fuel (fresh (pre_k ++ (d, Key k) :: post))
      = Some (Ret d, c') /\
      sent c' = pre_k /\ pending c' = post /\ (d, Key k) ∉ sent c') /\
  (exists c',
      capture_mouse P true fuel (fresh (pre_m ++ (d, Key k) :: post))
      = Some (Ret d, c') /\
      sent c' = pre_m /\ pending c' = post /\ (d, Key k) ∉ sent c') /\
  (exists c',
      listen_to_mouse P true fuel (fresh (pre_m ++ (d, Key k) :: post))
      = Some (Ret d, c') /\
      sent c' = pre_m /\ pending c' = post /\ (d, Key k) ∉ sent c').
Proof.
  intros Hk_pre Hm_pre Hd Hk Hfk Hfm.
  assert (Hvalid : is_valid d = true).
  { unfold is_keyboard in Hd. unfold is_valid.
    apply andb_true_iff in Hd as [H1 H2]. apply andb_true_iff.
    split; [exact H1|]. apply Z.leb_le in H2. apply Z.leb_le. lia. }
  assert (Hnot_k : (d, Key k) ∉ pre_k).
  { apply (escape_not_among_passed keyboard_passes); [exact Hk_pre|].
    unfold keyboard_passes. cbn [fst snd ordinary_key].
    rewrite Hk. apply andb_false_r. }
  assert (Hnot_m : (d, Key k) ∉ pre_m).
  { apply (escape_not_among_passed mouse_passes); [exact Hm_pre|].
    unfold mouse_passes. cbn [fst snd ordinary_key].
    rewrite Hd, Hk. apply andb_false_r. }
  repeat match goal with |- _ /\ _ => split end; eexists;
    (split; [|split; [|split]]).
  - unfold capture_keyboard, requires_driver.
    apply keyboard_loop_on_stream; assumption.
  - reflexivity.
  - reflexivity.
  - exact Hnot_k.
  - unfold listen_to_keyboard, requires_driver.
    apply keyboard_loop_on_stream; assumption.
  - reflexivity.
  - reflexivity.
  - exact Hnot_k.
  - unfold capture_mouse, requires_driver.
    apply mouse_loop_on_stream; assumption.
  - reflexivity.
  - reflexivity.
  - exact Hnot_m.
  - unfold listen_to_mouse, requires_driver.
    apply mouse_loop_on_stream; assumption.
  - reflexivity.
  - reflexivity.
  - exact Hnot_m.
Qed.

End ConsumedEscape.

Lemma escape_is_consumed_witness :
  exists c',
    EventLoops.listen_to_mouse sample_platform true 3
      (Mock.fresh ([(11, Mouse (mkMouseStroke 0x001 0 0 5 5 0));
                    (1, Key (mkKeyStroke 0x1E 0 0))]
                   ++ (1, Key (mkKeyStroke 0x01 0 0))
                   :: [(1, Key (mkKeyStroke 0x30 0 0))]))
    = Some (Ret 1, c') /\
    Mock.sent c' = [(11, Mouse (mkMouseStroke 0x001 0 0 5 5 0));
                    (1, Key (mkKeyStroke 0x1E 0 0))] /\
    Mock.pending c' = [(1, Key (mkKeyStroke 0x30 0 0))] /\
    (1, Key (mkKeyStroke 0x01 0 0)) ∉ Mock.sent c'.
Proof.
  refine (proj2 (proj2 (proj2
    (escape_is_consumed sample_platform
       [(1, Key (mkKeyStroke 0x1E 0 0))]
       [(11, Mouse (mkMouseStroke 0x001 0 0 5 5 0));
        (1, Key (mkKeyStroke 0x1E 0 0))]
       [(1, Key (mkKeyStroke 0x30 0 0))]
       1 (mkKeyStroke 0x01 0 0) 3 _ _ _ _ _ _)))).
  - repeat constructor.
  - repeat constructor.
  - reflexivity.
  - reflexivity.
  - simpl. lia.
  - simpl. lia.
Defined.

(** ** Closing the context *)

Section ScopedRelease.
Import DeviceRegistry EventLoops.
Context {C : Type} `{DriverContext C}.
Variable P : Platform.

Lemma finally_destroys {A} (body : M C A) (c : C) (o : outcome A) (c' : C) :
  try_finally body (lift _destroy_context) c = Some (o, c') ->
  is_closed c' = true.
Proof.
  unfold try_finally, lift. destruct (body c) as [[o' s']|]; [|discriminate].
  intros Heq. injection Heq as _ <-. apply destroy_closes.
Qed.

(** C5: whichever way one of the four loops leaves (returning on Escape,
    or with any exception raised by [wait], [receive], [send] or the
    body), the context it worked on has been closed.  This holds for
    every implementation of the context. *)
Theorem loops_close_context (fuel : nat) (c c' : C) (o : outcome Z) :
  capture_keyboard P true fuel c = Some (o, c') \/
  capture_mouse P true fuel c = Some (o, c') \/
  listen_to_keyboard P true fuel c = Some (o, c') \/
  listen_to_mouse P true fuel c = Some (o, c') ->
  is_closed c' = true.
Proof.
  unfold capture_keyboard, capture_mouse, listen_to_keyboard, listen_to_mouse,
    requires_driver.
  intros [Hrun|[Hrun|[Hrun|Hrun]]];
    unfold bind at 1 in Hrun; cbn [lift] in Hrun;
    try (unfold bind at 1 in Hrun; cbn [lift] in Hrun);
    exact (finally_destroys _ _ _ _ Hrun).
Qed.

End ScopedRelease.

Lemma loops_close_context_witness :
  is_closed
    (Mock.mkContext [] []
       (Mock.filters (Mock.mock_set_filter DeviceRegistry.is_keyboard
                        (FILTER_KEY_DOWN sample_platform) (Mock.fresh [])))
       true) = true.
Proof.
  apply (loops_close_context sample_platform 1
           (Mock.fresh [(1, Key (mkKeyStroke 0x01 0 0))]) _ (Ret 1)).
  left. vm_compute. reflexivity.
Defined.

(** An exception out of the body: a stroke of a device out of range makes
    [send] raise, and the context is closed all the same. *)
Lemma capture_keyboard_closes_on_error :
  exists c',
    EventLoops.capture_keyboard sample_platform true 5
      (Mock.fresh [(0, Key (mkKeyStroke 0x1E 0 0))])
    = Some (Raise InvalidDeviceError, c') /\
    Mock.closed c' = true.
Proof. eexists. split; [vm_compute; reflexivity|reflexivity]. Qed.

(** With nothing left to read the loop blocks in [wait]. *)
Lemma capture_keyboard_blocks_without_escape :
  EventLoops.capture_keyboard sample_platform true 5
    (Mock.fresh [(1, Key (mkKeyStroke 0x1E 0 0))]) = None.
Proof. vm_compute. reflexivity. Qed.

(** * Further properties of the input actions *)

Lemma strokes_app (a b : list event) :
  Inputs.strokes (a ++ b) = Inputs.strokes a ++ Inputs.strokes b.
Proof. unfold Inputs.strokes. apply flat_map_app. Qed.

Lemma strokes_of_rounds (n : nat) (each : list event) (k : nat) :
  length (Inputs.strokes each) = k ->
  length (Inputs.strokes (concat (replicate n each))) = (n * k)%nat.
Proof.
  intros Heach. induction n as [|n IH]; [reflexivity|].
  cbn [replicate concat]. rewrite strokes_app, length_app, IH, Heach. lia.
Qed.

Section Repetition.
Import Inputs.
Variable P : Platform.

(** X1: [press] on a supported ASCII key name.  When at most one press
    is requested, or [time.sleep] accepts the interval, it sends one
    down/up pair per requested press and nothing else to the driver; the
    interval follows each pair exactly when more than one press is
    requested, and a count of zero or less sends nothing.  When several
    presses are requested and [time.sleep] rejects the interval, the
    first pair is sent and the call ends with the exception of
    [time.sleep]. *)
Theorem press_sends_pairs (key : string) (kcode presses : Z) (interval : Q)
    (w : list event) :
  ascii_text key ->
  KEYBOARD_MAPPING P !! lower key = Some kcode ->
  let each := press_pair P kcode ++ if 1 <? presses then [ESleep interval] else [] in
  let added := concat (replicate (Z.to_nat presses) each) in
  (presses <= 1 \/ sleep_verdict (time_sleep_rejects P) interval = None ->
   press P true key presses interval w = Some (Ret tt, w ++ added)) /\
  (forall e, 1 < presses ->
     sleep_verdict (time_sleep_rejects P) interval = Some e ->
     press P true key presses interval w = Some (Raise e, w ++ press_pair P kcode)) /\
  length (strokes added) = (2 * Z.to_nat presses)%nat /\
  (presses <= 0 -> added = []).
Proof.
  intros _ Hk each added. split; [|split; [|split]].
  - intros Hi. apply press_supported; [exact Hk|].
    intros Hlt. destruct Hi as [Hle|Hv]; [lia|exact Hv].
  - intros e Hlt Hv. apply press_rejected; assumption.
  - unfold added. rewrite (strokes_of_rounds _ each 2); [lia|].
    unfold each. rewrite strokes_app. destruct (1 <? presses); reflexivity.
  - intros Hn. unfold added.
    replace (Z.to_nat presses) with 0%nat by lia. reflexivity.
Qed.

(** Clicks in place, for any count. *)
Lemma click_in_place (button : string) (clicks : Z) (interval delay : Q)
    (w : list event) :
  button ∈ _SUPPORTED_BUTTONS ->
  (1 < clicks -> sleep_verdict (time_sleep_rejects P) interval = None) ->
  click P true None None button clicks interval delay w
  = Some (Ret tt,
          w ++ concat (replicate (Z.to_nat clicks)
                         (click_pair P button
                          ++ if 1 <? clicks then [ESleep interval] else []))).
Proof.
  intros Hb Hi. unfold click, requires_driver.
  rewrite (bind_returns _ _ _ _ _ (check_button_known button w Hb)).
  rewrite (bind_returns _ _ w w tt) by reflexivity.
  unfold for_range. apply repeat_times_appends. intros w'.
  rewrite (bind_returns _ _ _ _ _ (mouse_down_default P button w' Hb)).
  rewrite (bind_returns _ _ _ _ _ (mouse_up_default P button _ Hb)).
  unfold click_pair. destruct (Z.ltb_spec 1 clicks) as [Hlt|Hge].
  - rewrite sleep_slept by (apply Hi; exact Hlt).
    rewrite <- !app_assoc. reflexivity.
  - unfold ret. rewrite app_nil_r, <- !app_assoc. reflexivity.
Qed.

(** Several clicks in place with an interval that [time.sleep] rejects. *)
Lemma click_rejected (button : string) (clicks : Z) (interval delay : Q)
    (e : exn) (w : list event) :
  button ∈ _SUPPORTED_BUTTONS -> 1 < clicks ->
  sleep_verdict (time_sleep_rejects P) interval = Some e ->
  click P true None None button clicks interval delay w
  = Some (Raise e, w ++ click_pair P button).
Proof.
  intros Hb Hn Hv. unfold click, requires_driver.
  rewrite (bind_returns _ _ _ _ _ (check_button_known button w Hb)).
  rewrite (bind_returns _ _ w w tt) by reflexivity.
  unfold for_range. apply repeat_times_raises; [lia|].
  rewrite (bind_returns _ _ _ _ _ (mouse_down_default P button w Hb)).
  rewrite (bind_returns _ _ _ _ _ (mouse_up_default P button _ Hb)).
  assert (Hlt : (1 <? clicks) = true) by (apply Z.ltb_lt; exact Hn).
  rewrite Hlt. rewrite (sleep_rejected P interval e) by exact Hv.
  unfold click_pair. rewrite <- !app_assoc. reflexivity.
Qed.

(** X2: [click] without a position, on a supported button.  When at
    most one click is requested, or [time.sleep] accepts the interval,
    it sends one down/up pair per requested click; a single click is not
    followed by the interval, and a count of zero or less sends nothing.
    When several clicks are requested and [time.sleep] rejects the
    interval, the first pair is sent and the call ends with the
    exception of [time.sleep]. *)
Theorem click_sends_pairs (button : string) (clicks : Z) (interval delay : Q)
    (w : list event) :
  button ∈ _SUPPORTED_BUTTONS ->
  let each := click_pair P button ++ if 1 <? clicks then [ESleep interval] else [] in
  let added := concat (replicate (Z.to_nat clicks) each) in
  (clicks <= 1 \/ sleep_verdict (time_sleep_rejects P) interval = None ->
   click P true None None button clicks interval delay w = Some (Ret tt, w ++ added)) /\
  (forall e, 1 < clicks ->
     sleep_verdict (time_sleep_rejects P) interval = Some e ->
     click P true None None button clicks interval delay w
     = Some (Raise e, w ++ click_pair P button)) /\
  length (strokes added) = (2 * Z.to_nat clicks)%nat /\
  (clicks = 1 -> added = click_pair P button) /\
  (clicks <= 0 -> added = []).
Proof.
  intros Hb each added. split; [|split; [|split; [|split]]].
  - intros Hi. apply click_in_place; [exact Hb|].
    intros Hlt. destruct Hi as [Hle|Hv]; [lia|exact Hv].
  - intros e Hlt Hv. apply click_rejected; assumption.
  - unfold added. rewrite (strokes_of_rounds _ each 2); [lia|].
    unfold each. rewrite strokes_app. destruct (1 <? clicks); reflexivity.
  - intros ->. reflexivity.
  - intros Hn. unfold added.
    replace (Z.to_nat clicks) with 0%nat by lia. reflexivity.
Qed.

(** X3: [click] with a position, on a supported button.  The position
    goes through [_utils.normalize] and
    [_utils.to_interception_coordinate]; when one of them raises, the
    call ends with that exception and nothing is sent.  Otherwise one
    absolute-move stroke to the converted coordinates is sent and
    [delay] is handed to [time.sleep]: when that rejects it the call
    ends with its exception after the move, and when it sleeps the call
    goes on as the same click without a position. *)
Theorem click_moves_first (x : Z + Z * Z) (y : option Z) (button : string)
    (clicks : Z) (interval delay : Q) (w : list event) :
  button ∈ _SUPPORTED_BUTTONS ->
  let move (c : Z * Z) :=
    ESend mouse (Mouse (mkMouseStroke 0 (MOUSE_MOVE_ABSOLUTE P) 0
                          (fst c) (snd c) 0)) in
  (forall e, normalize P x y = Raise e ->
     click P true (Some x) y button clicks interval delay w = Some (Raise e, w)) /\
  (forall p e, normalize P x y = Ret p ->
     to_interception_coordinate P (fst p) (snd p) = Raise e ->
     click P true (Some x) y button clicks interval delay w = Some (Raise e, w)) /\
  (forall p c, normalize P x y = Ret p ->
     to_interception_coordinate P (fst p) (snd p) = Ret c ->
     click P true (Some x) y button clicks interval delay w
     = match sleep_verdict (time_sleep_rejects P) delay with
       | None =>
           click P true None None button clicks interval delay
             (w ++ [move c; ESleep delay])
       | Some e => Some (Raise e, w ++ [move c])
       end).
Proof.
  intros Hb move.
  assert (Hclick : forall w0,
            click P true (Some x) y button clicks interval delay w0
            = match (move_to P true x y ;; sleep P delay)%act w0 with
              | Some (Ret _, w1) =>
                  click P true None None button clicks interval delay w1
              | Some (Raise e, w1) => Some (Raise e, w1)
              | None => None
              end).
  { intros w0. unfold click, requires_driver.
    rewrite (bind_returns _ _ _ _ _ (check_button_known button w0 Hb)).
    unfold bind at 1.
    destruct ((move_to P true x y ;; sleep P delay)%act w0) as [[[[]|e] w1]|];
      [|reflexivity|reflexivity].
    rewrite (bind_returns _ _ _ _ _ (check_button_known button w1 Hb)).
    rewrite (bind_returns _ _ w1 w1 tt) by reflexivity. reflexivity. }
  split; [|split].
  - intros e Hn. rewrite Hclick.
    unfold move_to, requires_driver, bind. rewrite Hn. reflexivity.
  - intros p e Hn Hc. rewrite Hclick.
    unfold move_to, requires_driver, bind. rewrite Hn, Hc. reflexivity.
  - intros p c Hn Hc. rewrite Hclick.
    assert (Hmove : move_to P true x y w = Some (Ret tt, w ++ [move c])).
    { unfold move_to, requires_driver, bind. rewrite Hn, Hc. reflexivity. }
    rewrite (bind_returns _ _ _ _ _ Hmove). subst move. cbn beta.
    rewrite send_then_sleep.
    destruct (sleep_verdict (time_sleep_rejects P) delay); reflexivity.
Qed.

End Repetition.

Lemma press_sends_pairs_witness :
  Inputs.press sample_platform true "B" 2 0.1 []
  = Some (Ret tt,
          [ESend 1 (Key (mkKeyStroke 0x30 0 0)); ESleep 0.025;
           ESend 1 (Key (mkKeyStroke 0x30 1 0)); ESleep 0.025; ESleep 0.1;
           ESend 1 (Key (mkKeyStroke 0x30 0 0)); ESleep 0.025;
           ESend 1 (Key (mkKeyStroke 0x30 1 0)); ESleep 0.025; ESleep 0.1]).
Proof.
  refine (proj1 (press_sends_pairs sample_platform "B" 0x30 2 0.1 [] _ _) _).
  - vm_compute; tauto.
  - vm_compute; reflexivity.
  - right. vm_compute; reflexivity.
Defined.

Lemma click_sends_pairs_witness :
  Inputs.click sample_platform true None None "right" 1 0.1 0.3 []
  = Some (Ret tt, [] ++ Inputs.click_pair sample_platform "right" ++ []).
Proof.
  refine (proj1 (click_sends_pairs sample_platform "right" 1 0.1 0.3 [] _) _).
  - vm_compute; reflexivity.
  - left. lia.
Defined.

Lemma click_moves_first_witness :
  Inputs.click sample_platform true (Some (inr (960, 540))) None "left" 1 0.1 0.3 []
  = Inputs.click sample_platform true None None "left" 1 0.1 0.3
      ([] ++ [ESend 11 (Mouse (mkMouseStroke 0 1 0 32767 32767 0)); ESleep 0.3]).
Proof.
  refine (proj2 (proj2 (click_moves_first sample_platform (inr (960, 540)) None
                          "left" 1 0.1 0.3 [] _)) (960, 540) (32767, 32767) _ _).
  - vm_compute; reflexivity.
  - reflexivity.
  - reflexivity.
Defined.

Section Holding.
Import Inputs.
Variable P : Platform.

(** X4: [with hold_key(key): body] on a supported key presses the key,
    runs the body, and releases the key after it whether the body
    returned or raised; the body's result or exception is what the
    statement yields.  A body that never returns leaves the key down. *)
Theorem hold_key_releases {A} (key : string) (kcode : Z)
    (body : M (list event) A) (w : list event) :
  KEYBOARD_MAPPING P !! lower key = Some kcode ->
  hold_key P true key body w
  = match body (w ++ [ESend keyboard (key_stroke_down P kcode);
                      ESleep KEY_PRESS_DELAY]) with
    | Some (o, w') =>
        Some (o, w' ++ [ESend keyboard (key_stroke_up P kcode);
                        ESleep KEY_PRESS_DELAY])
    | None => None
    end.
Proof.
  intros Hk. unfold hold_key, requires_driver.
  rewrite (bind_returns _ _ _ _ _ (key_down_default P key kcode w Hk)).
  unfold try_finally.
  destruct (body _) as [[o w']|]; [|reflexivity].
  rewrite (key_up_default P key kcode w' Hk). reflexivity.
Qed.

(** X5: [with hold_mouse(button): body] on a supported button presses
    the button, runs the body, and releases the button after it whether
    the body returned or raised, passing the body's outcome on. *)
Theorem hold_mouse_releases {A} (button : string)
    (body : M (list event) A) (w : list event) :
  button ∈ _SUPPORTED_BUTTONS ->
  hold_mouse P true button body w
  = match body (w ++ [ESend mouse (button_stroke_down P button);
                      ESleep MOUSE_BUTTON_DELAY]) with
    | Some (o, w') =>
        Some (o, w' ++ [ESend mouse (button_stroke_up P button);
                        ESleep MOUSE_BUTTON_DELAY])
    | None => None
    end.
Proof.
  intros Hb. unfold hold_mouse, requires_driver.
  rewrite (bind_returns _ _ _ _ _ (mouse_down_default P button w Hb)).
  unfold try_finally.
  destruct (body _) as [[o w']|]; [|reflexivity].
  rewrite (mouse_up_default P button w' Hb). reflexivity.
Qed.

(** X6: [scroll] never rejects its argument: it sends one wheel stroke,
    upward for exactly the string "up" and downward for every other
    string, and then sleeps 0.025. *)
Theorem scroll_down_unless_up (direction : string) (w : list event) :
  direction <> "up" ->
  scroll P true direction w
  = Some (Ret tt,
          w ++ [ESend mouse (Mouse (mkMouseStroke (MOUSE_WHEEL P) 0
                                      (MOUSE_WHEEL_DOWN P) 0 0 0));
                ESleep 0.025]) /\
  scroll P true "up" w
  = Some (Ret tt,
          w ++ [ESend mouse (Mouse (mkMouseStroke (MOUSE_WHEEL P) 0
                                      (MOUSE_WHEEL_UP P) 0 0 0));
                ESleep 0.025]).
Proof.
  intros Hdir. split.
  - unfold scroll, requires_driver.
    apply String.eqb_neq in Hdir. rewrite Hdir.
    unfold bind, interception_send.
    rewrite sleep_common by (split; discriminate).
    rewrite <- app_assoc. reflexivity.
  - unfold scroll, requires_driver. cbn [String.eqb].
    unfold bind, interception_send.
    rewrite sleep_common by (split; discriminate).
    rewrite <- app_assoc. reflexivity.
Qed.

End Holding.

Lemma hold_key_releases_witness :
  Inputs.hold_key sample_platform true "a" (raise (OtherError "body failed")) []
  = Some (Raise (OtherError "body failed") : outcome unit,
          [ESend 1 (Key (mkKeyStroke 0x1E 0 0)); ESleep 0.025;
           ESend 1 (Key (mkKeyStroke 0x1E 1 0)); ESleep 0.025]).
Proof.
  refine (hold_key_releases sample_platform "a" 0x1E
            (raise (OtherError "body failed")) [] _).
  vm_compute; reflexivity.
Defined.

Lemma hold_mouse_releases_witness :
  Inputs.hold_mouse sample_platform true "left"
    (Inputs.move_relative sample_platform true 10 0) []
  = Some (Ret tt,
          [ESend 11 (Mouse (mkMouseStroke 1 1 0 0 0 0)); ESleep 0.03;
           ESend 11 (Mouse (mkMouseStroke 0 0 0 10 0 0));
           ESend 11 (Mouse (mkMouseStroke 2 1 0 0 0 0)); ESleep 0.03]).
Proof.
  refine (hold_mouse_releases sample_platform "left"
            (Inputs.move_relative sample_platform true 10 0) [] _).
  vm_compute; reflexivity.
Defined.

Lemma scroll_down_unless_up_witness :
  Inputs.scroll sample_platform true "UP" []
  = Some (Ret tt, [ESend 11 (Mouse (mkMouseStroke 0x400 0 (-120) 0 0 0));
                   ESleep 0.025]).
Proof.
  refine (proj1 (scroll_down_unless_up sample_platform "UP" [] _)).
  discriminate.
Defined.

Lemma lower_length (s : string) : String.length (lower s) = String.length s.
Proof. induction s as [|c s IH]; simpl; [reflexivity|]. rewrite IH. reflexivity. Qed.

Section Writing.
Import Inputs.
Variable P : Platform.

Lemma write_chars_all (interval : Q) (text : string) :
  sleep_verdict (time_sleep_rejects P) interval = None ->
  lower text = text ->
  all_supported P text ->
  forall w,
    write_chars P true text interval w = Some (Ret tt, w ++ typed P interval text).
Proof.
  intros Hi. induction text as [|ch text IH]; intros Hlow Hsup w.
  - cbn [write_chars typed]. rewrite app_nil_r. reflexivity.
  - cbn [lower] in Hlow. injection Hlow as Hch Htext.
    destruct Hsup as [[kcode Hk] Hsup].
    cbn [write_chars typed].
    assert (Hk' : KEYBOARD_MAPPING P !! lower (String ch EmptyString) = Some kcode)
      by (cbn [lower]; rewrite Hch; exact Hk).
    rewrite (bind_returns _ _ _ _ _ (press_once P _ kcode _ w Hk')).
    rewrite (bind_returns _ _ _ _ _ (sleep_slept P interval _ Hi)).
    rewrite IH by assumption. rewrite Hk.
    rewrite <- !app_assoc. reflexivity.
Qed.

Lemma typed_strokes (interval : Q) (text : string) :
  all_supported P text ->
  length (strokes (typed P interval text)) = (2 * String.length text)%nat.
Proof.
  induction text as [|ch text IH]; intros Hsup; [reflexivity|].
  destruct Hsup as [[kcode Hk] Hsup].
  cbn [typed String.length]. rewrite Hk.
  rewrite strokes_app, length_app.
  change (strokes (ESleep interval :: typed P interval text))
    with (strokes (typed P interval text)).
  rewrite IH by exact Hsup. cbn. lia.
Qed.

(** X7: [write] on an ASCII term whose lowered characters all have a
    key code.  When [time.sleep] accepts the interval, as it does from
    zero to 4294967 seconds, the call returns after pressing and
    releasing every character in order, each followed by the interval:
    two strokes per character of the term.  When [time.sleep] rejects
    the interval, as it does every negative one, and the term is not
    empty, the first character is pressed and released and the call ends
    with the exception of [time.sleep].  An empty term returns at once. *)
Theorem write_types_every_character (term : string) (interval : Q)
    (w : list event) :
  ascii_text term ->
  all_supported P (lower term) ->
  (sleep_verdict (time_sleep_rejects P) interval = None ->
   write P true term interval w
   = Some (Ret tt, w ++ typed P interval (lower term))) /\
  (forall e ch rest kcode,
     sleep_verdict (time_sleep_rejects P) interval = Some e ->
     lower term = String ch rest ->
     KEYBOARD_MAPPING P !! String ch EmptyString = Some kcode ->
     write P true term interval w = Some (Raise e, w ++ press_pair P kcode)) /\
  (term = EmptyString -> write P true term interval w = Some (Ret tt, w)) /\
  length (strokes (typed P interval (lower term)))
  = (2 * String.length term)%nat /\
  (common_length interval -> sleep_verdict (time_sleep_rejects P) interval = None) /\
  ((interval < 0)%Q ->
   exists e, sleep_verdict (time_sleep_rejects P) interval = Some e).
Proof.
  intros _ Hsup. split; [|split; [|split; [|split; [|split]]]].
  - intros Hi. unfold write, requires_driver.
    apply write_chars_all; [exact Hi|apply lower_idempotent|exact Hsup].
  - intros e ch rest kcode Hv Hterm Hk. unfold write, requires_driver.
    pose proof (lower_idempotent term) as Hlow. rewrite Hterm in *.
    cbn [lower] in Hlow. injection Hlow as Hch _.
    apply write_chars_rejected; assumption.
  - intros ->. reflexivity.
  - rewrite typed_strokes by exact Hsup. rewrite lower_length. reflexivity.
  - apply sleep_verdict_common.
  - apply sleep_verdict_negative.
Qed.

(** X8: the keyboard operations do not see the case of a name: a name
    and its lowered form behave alike in [key_down], [key_up], [press],
    [write] and [hold_key], whether the key is supported or not and
    whether the driver is installed or not. *)
Theorem key_names_are_lowered (installed : bool) (name : string) :
  (forall delay,
      key_down P installed name delay = key_down P installed (lower name) delay /\
      key_up P installed name delay = key_up P installed (lower name) delay) /\
  (forall presses interval,
      press P installed name presses interval
      = press P installed (lower name) presses interval) /\
  (forall interval,
      write P installed name interval = write P installed (lower name) interval) /\
  (forall (A : Type) (body : M (list event) A),
      hold_key P installed name body = hold_key P installed (lower name) body).
Proof.
  repeat match goal with |- _ /\ _ => split end; intros;
    repeat match goal with |- _ /\ _ => split end;
    unfold key_down, key_up, press, write, hold_key, key_down, key_up;
    rewrite !lower_idempotent; reflexivity.
Qed.

End Writing.

Lemma write_types_every_character_witness :
  Inputs.write sample_platform true "Ab" 0.05 []
  = Some (Ret tt, [] ++ Inputs.typed sample_platform 0.05 (lower "Ab")).
Proof.
  refine (proj1 (write_types_every_character sample_platform "Ab" 0.05 [] _ _) _).
  - vm_compute; tauto.
  - simpl. repeat split; eexists; vm_compute; reflexivity.
  - vm_compute; reflexivity.
Defined.

(** ** Footprints *)

Section FootprintRules.
Import Inputs Footprint.
Variable P : Platform.
Variable Ev : event -> Prop.
Variable Ex : exn -> Prop.
Hypothesis Ev_sleep : forall s, (0 <= s)%Q -> Ev (ESleep s).
Hypothesis Ex_driver : Ex DriverNotFoundError.
Hypothesis Ex_sleep : forall e, sleep_error P e -> Ex e.

Lemma footprint_ret {A} (a : A) : footprint Ev Ex (ret a).
Proof.
  intros w. exists (Ret a), []. rewrite app_nil_r.
  split; [reflexivity|]. split; [constructor|exact I].
Qed.

Lemma footprint_raise {A} (e : exn) : Ex e -> footprint Ev Ex (raise e : M _ A).
Proof.
  intros He w. exists (Raise e), []. rewrite app_nil_r.
  split; [reflexivity|]. split; [constructor|exact He].
Qed.

Lemma footprint_bind {A B} (m : M (list event) A) (k : A -> M (list event) B) :
  footprint Ev Ex m -> (forall a, footprint Ev Ex (k a)) -> footprint Ev Ex (bind m k).
Proof.
  intros Hm Hk w. destruct (Hm w) as (o & added & Heq & Hadded & Ho).
  unfold bind. rewrite Heq. destruct o as [a|e].
  - destruct (Hk a (w ++ added)) as (o' & added' & Heq' & Hadded' & Ho').
    exists o', (added ++ added'). rewrite app_assoc.
    split; [exact Heq'|]. split; [apply Forall_app; split; assumption|exact Ho'].
  - exists (Raise e), added. split; [reflexivity|]. split; assumption.
Qed.

Lemma footprint_repeat (n : nat) (body : M (list event) unit) :
  footprint Ev Ex body -> footprint Ev Ex (repeat_times n body).
Proof.
  intros Hbody. induction n as [|n IH]; cbn [repeat_times].
  - apply footprint_ret.
  - apply footprint_bind; [exact Hbody|intros _; exact IH].
Qed.

Lemma footprint_requires_driver {A} (installed : bool) (m : M (list event) A) :
  footprint Ev Ex m -> footprint Ev Ex (requires_driver installed m).
Proof.
  intros Hm. destruct installed; [exact Hm|].
  apply footprint_raise, Ex_driver.
Qed.

Lemma footprint_sleep (s : Q) : footprint Ev Ex (sleep P s).
Proof.
  intros w. unfold sleep, time_sleep.
  destruct (sleep_verdict (time_sleep_rejects P) s) as [e|] eqn:Hv.
  - exists (Raise e), []. rewrite app_nil_r.
    split; [reflexivity|]. split; [constructor|].
    apply Ex_sleep. exists s. exact Hv.
  - exists (Ret tt), [ESleep s]. split; [reflexivity|].
    split; [|exact I]. constructor; [|constructor].
    apply Ev_sleep, Qnot_lt_le. intros Hneg.
    destruct (sleep_verdict_negative (time_sleep_rejects P) s Hneg) as [e He].
    rewrite He in Hv. discriminate Hv.
Qed.

Lemma footprint_send (device : Z) (s : stroke) :
  Ev (ESend device s) -> footprint Ev Ex (interception_send device s).
Proof.
  intros Hq w. exists (Ret tt), [ESend device s].
  split; [reflexivity|]. split; [|exact I]. constructor; [exact Hq|constructor].
Qed.

Lemma footprint_try_finally {A} (body : M (list event) A)
    (fin : M (list event) unit) :
  footprint Ev Ex body -> footprint Ev Ex fin -> footprint Ev Ex (try_finally body fin).
Proof.
  intros Hbody Hfin w. destruct (Hbody w) as (o & added & Heq & Hadded & Ho).
  unfold try_finally. rewrite Heq.
  destruct (Hfin (w ++ added)) as (o' & added' & Heq' & Hadded' & Ho').
  rewrite Heq'. destruct o' as [[]|e].
  - exists o, (added ++ added'). rewrite app_assoc.
    split; [reflexivity|]. split; [apply Forall_app; split; assumption|exact Ho].
  - exists (Raise e), (added ++ added'). rewrite app_assoc.
    split; [reflexivity|]. split; [apply Forall_app; split; assumption|exact Ho'].
Qed.

End FootprintRules.

Lemma footprint_weaken {A} (Ev : event -> Prop) (Ex Ex' : exn -> Prop)
    (m : M (list event) A) :
  (forall e, Ex e -> Ex' e) ->
  Footprint.footprint Ev Ex m -> Footprint.footprint Ev Ex' m.
Proof.
  intros Hsub Hm w. destruct (Hm w) as (o & added & Heq & Hadded & Ho).
  exists o, added. split; [exact Heq|]. split; [exact Hadded|].
  destruct o as [a|e]; [exact I|apply Hsub, Ho].
Qed.

Section KeyboardFootprint.
Import Inputs Footprint.
Variable P : Platform.
Variable installed : bool.

Lemma keyboard_driver_error : keyboard_error P DriverNotFoundError.
Proof. left. reflexivity. Qed.

Lemma keyboard_sleep_error (e : exn) : sleep_error P e -> keyboard_error P e.
Proof. intros He. right. right. exact He. Qed.

Lemma keyboard_unknown_error (key : string) : keyboard_error P (UnknownKeyError key).
Proof. right. left. exists key. reflexivity. Qed.

Lemma keyboard_sleep (s : Q) :
  footprint keyboard_event (keyboard_error P) (sleep P s).
Proof.
  apply footprint_sleep; [intros s' Hs; exact Hs|apply keyboard_sleep_error].
Qed.

Lemma check_key_footprint (key : string) :
  footprint keyboard_event (keyboard_error P) (_check_key_exists P key).
Proof.
  unfold _check_key_exists. destruct (_SUPPORTED_KEYS P !! key).
  - apply footprint_ret.
  - apply footprint_raise, keyboard_unknown_error.
Qed.

Lemma key_down_footprint (key : string) (delay : option Q) :
  footprint keyboard_event (keyboard_error P) (key_down P installed key delay).
Proof.
  destruct installed; [|apply footprint_raise, keyboard_driver_error].
  intros w. destruct (KEYBOARD_MAPPING P !! lower key) as [kcode|] eqn:Hk.
  - rewrite (key_down_known P key kcode delay w Hk).
    destruct (keyboard_sleep (or_default delay KEY_PRESS_DELAY)
                (w ++ [ESend keyboard (key_stroke_down P kcode)]))
      as (o & added & Heq & Hadded & Ho).
    exists o, (ESend keyboard (key_stroke_down P kcode) :: added).
    rewrite Heq, <- app_assoc.
    split; [reflexivity|]. split; [|exact Ho].
    constructor; [reflexivity|exact Hadded].
  - rewrite (key_down_unknown P key delay w Hk).
    exists (Raise (UnknownKeyError (lower key))), []. rewrite app_nil_r.
    split; [reflexivity|]. split; [constructor|apply keyboard_unknown_error].
Qed.

Lemma key_up_footprint (key : string) (delay : option Q) :
  footprint keyboard_event (keyboard_error P) (key_up P installed key delay).
Proof.
  destruct installed; [|apply footprint_raise, keyboard_driver_error].
  intros w. destruct (KEYBOARD_MAPPING P !! lower key) as [kcode|] eqn:Hk.
  - rewrite (key_up_known P key kcode delay w Hk).
    destruct (keyboard_sleep (or_default delay KEY_PRESS_DELAY)
                (w ++ [ESend keyboard (key_stroke_up P kcode)]))
      as (o & added & Heq & Hadded & Ho).
    exists o, (ESend keyboard (key_stroke_up P kcode) :: added).
    rewrite Heq, <- app_assoc.
    split; [reflexivity|]. split; [|exact Ho].
    constructor; [reflexivity|exact Hadded].
  - rewrite (key_up_unknown P key delay w Hk).
    exists (Raise (UnknownKeyError (lower key))), []. rewrite app_nil_r.
    split; [reflexivity|]. split; [constructor|apply keyboard_unknown_error].
Qed.

Lemma press_footprint (key : string) (presses : Z) (interval : Q) :
  footprint keyboard_event (keyboard_error P) (press P installed key presses interval).
Proof.
  unfold press. apply footprint_requires_driver; [apply keyboard_driver_error|].
  apply footprint_bind; [apply check_key_footprint|intros _].
  unfold for_range. apply footprint_repeat.
  apply footprint_bind; [apply key_down_footprint|intros _].
  apply footprint_bind; [apply key_up_footprint|intros _].
  destruct (1 <? presses); [apply keyboard_sleep|apply footprint_ret].
Qed.

Lemma write_chars_footprint (term : string) (interval : Q) :
  footprint keyboard_event (keyboard_error P) (write_chars P installed term interval).
Proof.
  induction term as [|c term IH]; cbn [write_chars].
  - apply footprint_ret.
  - apply footprint_bind; [apply press_footprint|intros _].
    apply footprint_bind; [apply keyboard_sleep|intros _]. exact IH.
Qed.

(** X9: whatever their arguments (durations being finite numbers) and
    whether or not the driver is installed, [key_down], [key_up],
    [press] and [write] come back (returning or raising), leave the
    events recorded before the call untouched, send only key strokes and
    only to device 1, sleep only non-negative times, and raise nothing
    but [DriverNotFoundError], [UnknownKeyError] or an exception that
    [time.sleep] raises for some length ([ValueError] for a negative
    one, the build's own for one outside its range); in particular the
    table lookup after the check never raises [KeyError].  [hold_key]
    keeps this footprint around any body that has it. *)
Theorem keyboard_actions_footprint :
  (forall key delay,
      footprint keyboard_event (keyboard_error P) (key_down P installed key delay) /\
      footprint keyboard_event (keyboard_error P) (key_up P installed key delay)) /\
  (forall key presses interval,
      footprint keyboard_event (keyboard_error P)
        (press P installed key presses interval)) /\
  (forall term interval,
      footprint keyboard_event (keyboard_error P) (write P installed term interval)) /\
  (forall (A : Type) key (body : M (list event) A),
      footprint keyboard_event (keyboard_error P) body ->
      footprint keyboard_event (keyboard_error P) (hold_key P installed key body)) /\
  keyboard_error P ValueError /\
  (forall key, (forall seconds,
      sleep_verdict (time_sleep_rejects P) seconds <> Some (KeyError key)) ->
      ~ keyboard_error P (KeyError key)).
Proof.
  split; [|split; [|split; [|split; [|split]]]].
  - intros key delay. split; [apply key_down_footprint|apply key_up_footprint].
  - apply press_footprint.
  - intros term interval. unfold write.
    apply footprint_requires_driver; [apply keyboard_driver_error|].
    apply write_chars_footprint.
  - intros A key body Hbody. unfold hold_key.
    apply footprint_requires_driver; [apply keyboard_driver_error|].
    apply footprint_bind; [apply key_down_footprint|intros _].
    apply footprint_try_finally; [exact Hbody|apply key_up_footprint].
  - apply keyboard_sleep_error. exists (-1 # 1)%Q.
    apply sleep_verdict_small_negative; [reflexivity|discriminate].
  - intros key Hnone [Hd|[[k Hk]|[seconds Hs]]];
      [discriminate Hd|discriminate Hk|exact (Hnone seconds Hs)].
Qed.

End KeyboardFootprint.

Section MouseFootprint.
Import Inputs Footprint.
Variable P : Platform.
Variable installed : bool.

Lemma mouse_driver_error : mouse_error P DriverNotFoundError.
Proof. left. reflexivity. Qed.

Lemma mouse_sleep_error (e : exn) : sleep_error P e -> mouse_error P e.
Proof. intros He. right. right. exact He. Qed.

Lemma mouse_unknown_error (button : string) : mouse_error P (UnknownButtonError button).
Proof. right. left. exists button. reflexivity. Qed.

Lemma mouse_sleep (s : Q) : footprint mouse_event (mouse_error P) (sleep P s).
Proof.
  apply footprint_sleep; [intros s' Hs; exact Hs|apply mouse_sleep_error].
Qed.

Lemma check_button_footprint (button : string) :
  footprint mouse_event (mouse_error P) (_check_button_exists button).
Proof.
  unfold _check_button_exists. destruct (decide (button ∈ _SUPPORTED_BUTTONS)).
  - apply footprint_ret.
  - apply footprint_raise, mouse_unknown_error.
Qed.

Lemma mouse_send (Ex : exn -> Prop) (s : MouseStroke) :
  footprint mouse_event Ex (interception_send mouse (Mouse s)).
Proof. apply footprint_send. reflexivity. Qed.

Lemma move_to_footprint (x : Z + Z * Z) (y : option Z) :
  footprint mouse_event (positional_error P) (move_to P installed x y).
Proof.
  unfold move_to.
  apply footprint_requires_driver; [left; apply mouse_driver_error|].
  intros w. unfold bind.
  destruct (normalize P x y) as [p|e] eqn:Hn.
  - destruct (to_interception_coordinate P (fst p) (snd p)) as [c|e] eqn:Hc.
    + apply mouse_send.
    + exists (Raise e), []. rewrite app_nil_r.
      split; [reflexivity|]. split; [constructor|].
      right. right. exists (fst p), (snd p). exact Hc.
  - exists (Raise e), []. rewrite app_nil_r.
    split; [reflexivity|]. split; [constructor|].
    right. left. exists x, y. exact Hn.
Qed.

Lemma mouse_down_footprint (button : string) (delay : option Q) :
  footprint mouse_event (mouse_error P) (mouse_down P installed button delay).
Proof.
  unfold mouse_down. apply footprint_requires_driver; [apply mouse_driver_error|].
  apply footprint_bind; [apply check_button_footprint|intros _].
  apply footprint_bind; [apply mouse_send|intros _]. apply mouse_sleep.
Qed.

Lemma mouse_up_footprint (button : string) (delay : option Q) :
  footprint mouse_event (mouse_error P) (mouse_up P installed button delay).
Proof.
  unfold mouse_up. apply footprint_requires_driver; [apply mouse_driver_error|].
  apply footprint_bind; [apply check_button_footprint|intros _].
  apply footprint_bind; [apply mouse_send|intros _]. apply mouse_sleep.
Qed.

Lemma click_rounds_footprint (button : string) (clicks : Z) (interval : Q) :
  footprint mouse_event (mouse_error P)
    (for_range clicks (
       mouse_down P installed button None ;;
       mouse_up P installed button None ;;
       if 1 <? clicks then sleep P interval else ret tt))%act.
Proof.
  unfold for_range. apply footprint_repeat.
  apply footprint_bind; [apply mouse_down_footprint|intros _].
  apply footprint_bind; [apply mouse_up_footprint|intros _].
  destruct (1 <? clicks); [apply mouse_sleep|apply footprint_ret].
Qed.

Lemma click_in_place_footprint (button : string) (clicks : Z) (interval delay : Q) :
  footprint mouse_event (mouse_error P)
    (click P installed None None button clicks interval delay).
Proof.
  unfold click. apply footprint_requires_driver; [apply mouse_driver_error|].
  apply footprint_bind; [apply check_button_footprint|intros _].
  apply footprint_bind; [apply footprint_ret|intros _].
  apply click_rounds_footprint.
Qed.

Lemma click_footprint (x : option (Z + Z * Z)) (y : option Z) (button : string)
    (clicks : Z) (interval delay : Q) :
  footprint mouse_event (positional_error P)
    (click P installed x y button clicks interval delay).
Proof.
  unfold click.
  apply footprint_requires_driver; [left; apply mouse_driver_error|].
  apply footprint_bind;
    [apply (footprint_weaken _ (mouse_error P)); [intros e He; left; exact He|];
     apply check_button_footprint|intros _].
  apply footprint_bind.
  - destruct x as [x|]; [|apply footprint_ret].
    apply footprint_bind; [apply move_to_footprint|intros _].
    apply (footprint_weaken _ (mouse_error P)); [intros e He; left; exact He|].
    apply mouse_sleep.
  - intros _.
    apply (footprint_weaken _ (mouse_error P)); [intros e He; left; exact He|].
    apply click_rounds_footprint.
Qed.

(** X10: whatever their arguments (durations being finite numbers) and
    whether or not the driver is installed, [move_relative],
    [mouse_down], [mouse_up], [click] without a position, [left_click],
    [right_click] and [scroll] come back (returning or raising), leave
    the events recorded before the call untouched, send only mouse
    strokes and only to device 11, sleep only non-negative times, and
    raise nothing but [DriverNotFoundError], [UnknownButtonError] or an
    exception that [time.sleep] raises for some length ([ValueError] for
    a negative one, the build's own for one outside its range).
    [hold_mouse] keeps this footprint around any body that has it.
    [move_to] and [click] with a position have the same footprint as far
    as [_utils.normalize] and [_utils.to_interception_coordinate] come
    back, and may in addition raise what these two raise. *)
Theorem mouse_actions_footprint :
  (forall x y, footprint mouse_event (mouse_error P) (move_relative P installed x y)) /\
  (forall button delay,
      footprint mouse_event (mouse_error P) (mouse_down P installed button delay) /\
      footprint mouse_event (mouse_error P) (mouse_up P installed button delay)) /\
  (forall button clicks interval delay,
      footprint mouse_event (mouse_error P)
        (click P installed None None button clicks interval delay)) /\
  (forall clicks interval,
      footprint mouse_event (mouse_error P) (left_click P installed clicks interval) /\
      footprint mouse_event (mouse_error P) (right_click P installed clicks interval)) /\
  (forall direction,
      footprint mouse_event (mouse_error P) (scroll P installed direction)) /\
  (forall (A : Type) button (body : M (list event) A),
      footprint mouse_event (mouse_error P) body ->
      footprint mouse_event (mouse_error P) (hold_mouse P installed button body)) /\
  (forall x y, footprint mouse_event (positional_error P) (move_to P installed x y)) /\
  (forall x y button clicks interval delay,
      footprint mouse_event (positional_error P)
        (click P installed x y button clicks interval delay)) /\
  mouse_error P ValueError.
Proof.
  repeat match goal with |- _ /\ _ => split end; intros;
    repeat match goal with |- _ /\ _ => split end.
  - unfold move_relative. apply footprint_requires_driver; [apply mouse_driver_error|].
    apply mouse_send.
  - apply mouse_down_footprint.
  - apply mouse_up_footprint.
  - apply click_in_place_footprint.
  - unfold left_click. apply footprint_requires_driver; [apply mouse_driver_error|].
    apply click_in_place_footprint.
  - unfold right_click. apply footprint_requires_driver; [apply mouse_driver_error|].
    apply click_in_place_footprint.
  - unfold scroll. apply footprint_requires_driver; [apply mouse_driver_error|].
    apply footprint_bind; [apply mouse_send|intros _]. apply mouse_sleep.
  - unfold hold_mouse. apply footprint_requires_driver; [apply mouse_driver_error|].
    apply footprint_bind; [apply mouse_down_footprint|intros _].
    apply footprint_try_finally; [assumption|apply mouse_up_footprint].
  - apply move_to_footprint.
  - apply click_footprint.
  - apply mouse_sleep_error. exists (-1 # 1)%Q.
    apply sleep_verdict_small_negative; [reflexivity|discriminate].
Qed.

End MouseFootprint.

(** * Further properties of the coordinate conversion *)

Section CoordinateRange.
Import Coordinates.

(** X11: for a screen dimension [W > 0] and a pixel [0 <= x <= W] the
    converted coordinate lies in the driver's range 0..65535, never
    overshoots the exact value [65535 * x / W] and stays less than one
    unit below it; the left or top edge maps to 0, the far edge [x = W]
    to 65535, and every pixel inside the screen to less than 65535. *)
Theorem coordinate_in_driver_range (W x : Z) :
  0 < W -> 0 <= x <= W ->
  0 <= scale x W <= 65535 /\
  scale x W * W <= 65535 * x < (scale x W + 1) * W /\
  (x < W -> scale x W < 65535) /\
  scale 0 W = 0 /\
  scale W W = 65535.
Proof.
  intros HW Hx. rewrite !scale_is_floor by lia.
  pose proof (Z.mul_div_le (65535 * x) W HW) as Hle.
  pose proof (Z.mul_succ_div_gt (65535 * x) W HW) as Hgt.
  assert (Hlow : 0 <= 65535 * x / W) by (apply Z.div_pos; lia).
  repeat split.
  - exact Hlow.
  - apply Z.div_le_upper_bound; [exact HW|]. nia.
  - lia.
  - lia.
  - intros Hlt. apply Z.div_lt_upper_bound; [exact HW|]. nia.
  - apply Z.div_mul. lia.
Qed.

(** X12: for a screen dimension [W > 0] and two pixels
    [0 <= x < x' <= W] the conversion keeps their order, and on a screen
    dimension of at most 65535 pixels it keeps them apart: the pixel
    further right or down gets a strictly larger coordinate. *)
Theorem coordinate_keeps_order (W x x' : Z) :
  0 < W -> 0 <= x -> x < x' -> x' <= W ->
  scale x W <= scale x' W /\
  (W <= 65535 -> scale x W < scale x' W).
Proof.
  intros HW Hx Hlt _. rewrite !scale_is_floor by lia. split.
  - apply Z.div_le_mono; lia.
  - intros Hsmall.
    assert (Hstep : 65535 * x / W + 1 = (65535 * x + 1 * W) / W)
      by (rewrite Z.div_add by lia; reflexivity).
    assert (Hmono : (65535 * x + 1 * W) / W <= 65535 * x' / W)
      by (apply Z.div_le_mono; nia).
    lia.
Qed.

End CoordinateRange.

Lemma coordinate_in_driver_range_witness :
  0 <= Coordinates.scale 23 1920 <= 65535.
Proof.
  refine (proj1 (coordinate_in_driver_range 1920 23 _ _)); lia.
Defined.

Lemma coordinate_keeps_order_witness :
  Coordinates.scale 23 1920 < Coordinates.scale 24 1920.
Proof.
  refine (proj2 (coordinate_keeps_order 1920 23 24 _ _ _ _) _); lia.
Defined.

(** * Further properties of the loops *)

Section IterationCases.
Import DeviceRegistry Mock EventLoops Streams Verdicts.

Lemma send_out_of_range (d : Z) (s : stroke) (q snt : list (Z * stroke))
    (flt : gmap Z Z) :
  is_valid d = false ->
  send d s (mkContext q snt flt false)
  = Some (Raise InvalidDeviceError, mkContext q snt flt false).
Proof.
  intros Hd. cbn. unfold mock_send. cbn. rewrite Hd. reflexivity.
Qed.

Lemma resend_result (d : Z) (s : stroke) (rest snt : list (Z * stroke))
    (flt : gmap Z Z) :
  (send d s ;; ret None) (mkContext rest snt flt false)
  = iteration_result (resend d) (d, s) rest snt flt.
Proof.
  unfold resend. destruct (is_valid d) eqn:Hd.
  - rewrite (bind_returns _ _ _ _ _ (send_in_range d s rest snt flt Hd)).
    reflexivity.
  - rewrite (bind_raises _ _ _ _ _ (send_out_of_range d s rest snt flt Hd)).
    reflexivity.
Qed.

Lemma keyboard_iteration_cases (d : Z) (s : stroke)
    (rest snt : list (Z * stroke)) (flt : gmap Z Z) :
  keyboard_iteration (mkContext ((d, s) :: rest) snt flt false)
  = iteration_result (keyboard_verdict (d, s)) (d, s) rest snt flt.
Proof.
  unfold keyboard_iteration, keyboard_verdict. cbn [fst snd].
  rewrite (bind_returns _ _ _ _ _ (wait_head d s rest snt flt)).
  rewrite (bind_returns _ _ _ _ _ (receive_head d s rest snt flt)).
  destruct s as [k|m]; cbn [stroke_code].
  - rewrite (bind_returns _ _ _ _ (code k)) by reflexivity.
    destruct (code k =? 1); [reflexivity|]. apply resend_result.
  - reflexivity.
Qed.

Lemma mouse_iteration_cases (d : Z) (s : stroke)
    (rest snt : list (Z * stroke)) (flt : gmap Z Z) :
  mouse_iteration (mkContext ((d, s) :: rest) snt flt false)
  = iteration_result (mouse_verdict (d, s)) (d, s) rest snt flt.
Proof.
  unfold mouse_iteration, mouse_verdict. cbn [fst snd].
  rewrite (bind_returns _ _ _ _ _ (wait_head d s rest snt flt)).
  rewrite (bind_returns _ _ _ _ _ (receive_head d s rest snt flt)).
  destruct (is_keyboard d).
  - destruct s as [k|m]; cbn [stroke_code].
    + destruct (code k =? 1) eqn:Hk.
      * rewrite (bind_returns _ _ _ _ true)
          by (rewrite (bind_returns _ _ _ _ (code k)) by reflexivity;
              rewrite Hk; reflexivity).
        reflexivity.
      * rewrite (bind_returns _ _ _ _ false)
          by (rewrite (bind_returns _ _ _ _ (code k)) by reflexivity;
              rewrite Hk; reflexivity).
        apply resend_result.
    + reflexivity.
  - rewrite (bind_returns _ _ _ _ false) by reflexivity.
    apply resend_result.
Qed.

End IterationCases.

Section LoopByCases.
Import DeviceRegistry Mock EventLoops Streams Verdicts.
Variable body : M context (option Z).
Variable verdict_of : Z * stroke -> verdict.
Variable flt : gmap Z Z.
Hypothesis body_cases : forall e rest snt,
  body (mkContext (e :: rest) snt flt false)
  = iteration_result (verdict_of e) e rest snt flt.
Hypothesis body_blocks : forall snt, body (mkContext [] snt flt false) = None.

(** Whatever way the loop leaves, it has forwarded a prefix of the
    stream and the next stroke decided. *)
Lemma loop_leaves_on_decision (fuel : nat) :
  forall (q snt : list (Z * stroke)) (o : outcome Z) (c' : context),
    while_true fuel body (mkContext q snt flt false) = Some (o, c') ->
    exists pre e post,
      q = pre ++ e :: post /\
      Forall (fun x => verdict_of x = Forwarded) pre /\
      c' = mkContext post (snt ++ pre) flt false /\
      match o with
      | Ret d => verdict_of e = Returned /\ d = fst e
      | Raise err => verdict_of e = Failed err
      end.
Proof.
  induction fuel as [|fuel IH]; intros q snt o c' Hrun; [discriminate Hrun|].
  cbn [while_true] in Hrun. unfold bind in Hrun.
  destruct q as [|e rest].
  - rewrite body_blocks in Hrun. discriminate Hrun.
  - rewrite body_cases in Hrun.
    destruct (verdict_of e) as [| |err] eqn:Hv; cbn [iteration_result] in Hrun.
    + apply IH in Hrun as (pre & e' & post & Hq & Hpre & Hc & Ho).
      exists (e :: pre), e', post.
      split; [simpl; rewrite Hq; reflexivity|].
      split; [constructor; assumption|].
      split; [rewrite Hc, <- app_assoc; reflexivity|exact Ho].
    + injection Hrun as <- <-.
      exists [], e, rest. rewrite app_nil_r.
      split; [reflexivity|]. split; [constructor|].
      split; [reflexivity|]. split; [exact Hv|reflexivity].
    + injection Hrun as <- <-.
      exists [], e, rest. rewrite app_nil_r.
      split; [reflexivity|]. split; [constructor|].
      split; [reflexivity|exact Hv].
Qed.

(** A stream of strokes that are all forwarded leaves the loop blocked. *)
Lemma loop_blocks_when_all_forwarded (fuel : nat) :
  forall q snt : list (Z * stroke),
    Forall (fun x => verdict_of x = Forwarded) q ->
    while_true fuel body (mkContext q snt flt false) = None.
Proof.
  induction fuel as [|fuel IH]; intros q snt Hq; [reflexivity|].
  cbn [while_true]. unfold bind. destruct q as [|e rest].
  - rewrite body_blocks. reflexivity.
  - apply Forall_cons in Hq as [He Hrest].
    rewrite body_cases, He. cbn [iteration_result]. apply IH, Hrest.
Qed.

(** The first stroke that is not forwarded makes the loop raise. *)
Lemma loop_raises_on_failure (err : exn) (e : Z * stroke)
    (post : list (Z * stroke)) :
  verdict_of e = Failed err ->
  forall (pre snt : list (Z * stroke)) (fuel : nat),
    Forall (fun x => verdict_of x = Forwarded) pre ->
    (length pre < fuel)%nat ->
    while_true fuel body (mkContext (pre ++ e :: post) snt flt false)
    = Some (Raise err, mkContext post (snt ++ pre) flt false).
Proof.
  intros Hv pre. induction pre as [|a pre IH]; intros snt fuel Hpre Hfuel.
  - destruct fuel as [|fuel]; [inversion Hfuel|].
    cbn [while_true app]. unfold bind. rewrite body_cases, Hv.
    cbn [iteration_result]. rewrite app_nil_r. reflexivity.
  - destruct fuel as [|fuel]; [inversion Hfuel|].
    apply Forall_cons in Hpre as [Ha Hpre].
    cbn [while_true]. rewrite <- app_comm_cons. unfold bind.
    rewrite body_cases, Ha. cbn [iteration_result].
    rewrite IH; [|exact Hpre|simpl in Hfuel; lia].
    rewrite <- app_assoc. reflexivity.
Qed.

End LoopByCases.

Section VerdictFacts.
Import DeviceRegistry Mock EventLoops Streams Verdicts.

Lemma keyboard_forwarded_iff (e : Z * stroke) :
  keyboard_verdict e = Forwarded <-> keyboard_passes e = true.
Proof.
  unfold keyboard_verdict, keyboard_passes, resend, ordinary_key.
  destruct e as [d [k|m]]; cbn [fst snd];
    destruct (is_valid d); try destruct (code k =? 1); cbn;
    split; intros Heq; congruence.
Qed.

Lemma mouse_forwarded_iff (e : Z * stroke) :
  mouse_verdict e = Forwarded <-> mouse_passes e = true.
Proof.
  unfold mouse_verdict, mouse_passes, resend, ordinary_key.
  destruct e as [d [k|m]]; cbn [fst snd];
    destruct (is_valid d), (is_keyboard d); try destruct (code k =? 1); cbn;
    split; intros Heq; congruence.
Qed.

Lemma keyboard_returned (e : Z * stroke) :
  keyboard_verdict e = Returned -> exists k, snd e = Key k /\ code k = 0x01.
Proof.
  unfold keyboard_verdict, resend. destruct e as [d [k|m]]; cbn [fst snd].
  - destruct (code k =? 1) eqn:Hk.
    + intros _. exists k. split; [reflexivity|]. apply Z.eqb_eq, Hk.
    + destruct (is_valid d); discriminate.
  - discriminate.
Qed.

Lemma mouse_returned (e : Z * stroke) :
  mouse_verdict e = Returned ->
  is_keyboard (fst e) = true /\ exists k, snd e = Key k /\ code k = 0x01.
Proof.
  unfold mouse_verdict, resend. destruct e as [d [k|m]]; cbn [fst snd];
    destruct (is_keyboard d); try (destruct (is_valid d); discriminate).
  - destruct (code k =? 1) eqn:Hk.
    + intros _. split; [reflexivity|]. exists k.
      split; [reflexivity|]. apply Z.eqb_eq, Hk.
    + destruct (is_valid d); discriminate.
Qed.

Lemma forwarded_passes (verdict_of : Z * stroke -> verdict)
    (passes : Z * stroke -> bool) (l : list (Z * stroke)) :
  (forall e, verdict_of e = Forwarded <-> passes e = true) ->
  Forall (fun x => verdict_of x = Forwarded) l <->
  Forall (fun x => passes x = true) l.
Proof.
  intros Hiff. split; intros Hl; eapply Forall_impl; try exact Hl;
    intros e He; apply Hiff, He.
Qed.

(** The keyboard loops around their [while True]. *)
Lemma keyboard_loop_unwrapped (mask : Z) (fuel : nat)
    (stream : list (Z * stroke)) :
  (lift (set_filter is_keyboard mask) ;;
   try_finally (while_true fuel keyboard_iteration) (lift _destroy_context))
    (fresh stream)
  = match while_true fuel keyboard_iteration
            (mkContext stream []
               (filters (mock_set_filter is_keyboard mask (fresh []))) false)
    with
    | Some (o, c) => Some (o, mock_destroy c)
    | None => None
    end.
Proof.
  unfold bind, lift, try_finally. cbn [set_filter mock_context].
  unfold mock_set_filter at 1, fresh at 1. cbn [pending sent closed filters].
  destruct (while_true fuel keyboard_iteration _) as [[o c]|]; reflexivity.
Qed.

(** The mouse loops around their [while True]. *)
Lemma mouse_loop_unwrapped (mouse_mask key_mask : Z) (fuel : nat)
    (stream : list (Z * stroke)) :
  (lift (set_filter is_mouse mouse_mask) ;;
   lift (set_filter is_keyboard key_mask) ;;
   try_finally (while_true fuel mouse_iteration) (lift _destroy_context))
    (fresh stream)
  = match while_true fuel mouse_iteration
            (mkContext stream []
               (filters (mock_set_filter is_keyboard key_mask
                           (mock_set_filter is_mouse mouse_mask (fresh []))))
               false)
    with
    | Some (o, c) => Some (o, mock_destroy c)
    | None => None
    end.
Proof.
  unfold bind, lift, try_finally. cbn [set_filter mock_context].
  unfold mock_set_filter at 1 2, fresh at 1. cbn [pending sent closed filters].
  destruct (while_true fuel mouse_iteration _) as [[o c]|]; reflexivity.
Qed.

End VerdictFacts.

Section LoopOutcomes.
Import DeviceRegistry Mock EventLoops Streams Verdicts.
Variable P : Platform.

Lemma keyboard_iteration_blocks (snt : list (Z * stroke)) (flt : gmap Z Z) :
  keyboard_iteration (mkContext [] snt flt false) = None.
Proof. reflexivity. Qed.

Lemma mouse_iteration_blocks (snt : list (Z * stroke)) (flt : gmap Z Z) :
  mouse_iteration (mkContext [] snt flt false) = None.
Proof. reflexivity. Qed.

Lemma keyboard_body_cases (flt : gmap Z Z) (e : Z * stroke)
    (rest snt : list (Z * stroke)) :
  keyboard_iteration (mkContext (e :: rest) snt flt false)
  = iteration_result (keyboard_verdict e) e rest snt flt.
Proof. destruct e as [d s]. apply keyboard_iteration_cases. Qed.

Lemma mouse_body_cases (flt : gmap Z Z) (e : Z * stroke)
    (rest snt : list (Z * stroke)) :
  mouse_iteration (mkContext (e :: rest) snt flt false)
  = iteration_result (mouse_verdict e) e rest snt flt.
Proof. destruct e as [d s]. apply mouse_iteration_cases. Qed.

Lemma keyboard_passes_mouse_passes (e : Z * stroke) :
  keyboard_passes e = true -> mouse_passes e = true.
Proof.
  unfold keyboard_passes, mouse_passes. intros He.
  apply andb_true_iff in He as [Hd Hs]. rewrite Hd, Hs.
  destruct (is_keyboard (fst e)); reflexivity.
Qed.

Lemma keyboard_loop_returns (flt : gmap Z Z) (fuel : nat)
    (stream : list (Z * stroke)) (d : Z) (c : context) :
  while_true fuel keyboard_iteration (mkContext stream [] flt false)
  = Some (Ret d, c) ->
  exists pre k post,
    stream = pre ++ (d, Key k) :: post /\
    code k = 0x01 /\
    Forall (fun e => keyboard_passes e = true) pre /\
    c = mkContext post pre flt false.
Proof.
  intros Hloop.
  apply (loop_leaves_on_decision keyboard_iteration keyboard_verdict flt
           (keyboard_body_cases flt)
           (fun snt => keyboard_iteration_blocks snt flt)) in Hloop
    as (pre & [d' s] & post & Hq & Hpre & Hc & Hv & Hd).
  cbn [fst] in Hd. subst d'.
  destruct (keyboard_returned _ Hv) as (k & Hs & Hk). cbn [snd] in Hs. subst s.
  exists pre, k, post.
  split; [exact Hq|]. split; [exact Hk|].
  split; [|exact Hc].
  apply (forwarded_passes keyboard_verdict); [apply keyboard_forwarded_iff|exact Hpre].
Qed.

Lemma mouse_loop_returns (flt : gmap Z Z) (fuel : nat)
    (stream : list (Z * stroke)) (d : Z) (c : context) :
  while_true fuel mouse_iteration (mkContext stream [] flt false)
  = Some (Ret d, c) ->
  is_keyboard d = true /\
  exists pre k post,
    stream = pre ++ (d, Key k) :: post /\
    code k = 0x01 /\
    Forall (fun e => mouse_passes e = true) pre /\
    c = mkContext post pre flt false.
Proof.
  intros Hloop.
  apply (loop_leaves_on_decision mouse_iteration mouse_verdict flt
           (mouse_body_cases flt)
           (fun snt => mouse_iteration_blocks snt flt)) in Hloop
    as (pre & [d' s] & post & Hq & Hpre & Hc & Hv & Hd).
  cbn [fst] in Hd. subst d'.
  destruct (mouse_returned _ Hv) as (Hkb & k & Hs & Hk).
  cbn [fst snd] in Hkb, Hs. subst s.
  split; [exact Hkb|]. exists pre, k, post.
  split; [exact Hq|]. split; [exact Hk|].
  split; [|exact Hc].
  apply (forwarded_passes mouse_verdict); [apply mouse_forwarded_iff|exact Hpre].
Qed.

(** X13: [capture_keyboard] and [listen_to_keyboard] return a device
    only for an Escape: when one of them returns [d] on a simulated
    stream, the stream holds a key stroke with code 1 from [d], every
    stroke before it was an ordinary key stroke and has been sent back in
    order, and the strokes after it are still pending. *)
Theorem keyboard_loops_return_only_on_escape (stream : list (Z * stroke))
    (fuel : nat) (d : Z) (c' : context) :
  capture_keyboard P true fuel (fresh stream) = Some (Ret d, c') \/
  listen_to_keyboard P true fuel (fresh stream) = Some (Ret d, c') ->
  exists pre k post,
    stream = pre ++ (d, Key k) :: post /\
    code k = 0x01 /\
    Forall (fun e => keyboard_passes e = true) pre /\
    sent c' = pre /\ pending c' = post /\ closed c' = true.
Proof.
  unfold capture_keyboard, listen_to_keyboard, requires_driver.
  intros [Hrun|Hrun]; rewrite keyboard_loop_unwrapped in Hrun;
    destruct (while_true fuel keyboard_iteration _) as [[o c]|] eqn:Hloop;
    try discriminate Hrun; injection Hrun as -> <-;
    apply keyboard_loop_returns in Hloop as (pre & k & post & Hq & Hk & Hpre & ->);
    exists pre, k, post; repeat split; assumption.
Qed.

(** X14: [capture_mouse] and [listen_to_mouse] return a device only for
    an Escape typed on a keyboard: when one of them returns [d] on a
    simulated stream, [d] is a keyboard slot, the stream holds a key
    stroke with code 1 from [d], every stroke before it has been sent
    back in order, and the strokes after it are still pending. *)
Theorem mouse_loops_return_only_on_escape (stream : list (Z * stroke))
    (fuel : nat) (d : Z) (c' : context) :
  capture_mouse P true fuel (fresh stream) = Some (Ret d, c') \/
  listen_to_mouse P true fuel (fresh stream) = Some (Ret d, c') ->
  is_keyboard d = true /\
  exists pre k post,
    stream = pre ++ (d, Key k) :: post /\
    code k = 0x01 /\
    Forall (fun e => mouse_passes e = true) pre /\
    sent c' = pre /\ pending c' = post /\ closed c' = true.
Proof.
  unfold capture_mouse, listen_to_mouse, requires_driver.
  intros [Hrun|Hrun]; rewrite mouse_loop_unwrapped in Hrun;
    destruct (while_true fuel mouse_iteration _) as [[o c]|] eqn:Hloop;
    try discriminate Hrun; injection Hrun as -> <-;
    apply mouse_loop_returns in Hloop
      as (Hkb & pre & k & post & Hq & Hk & Hpre & ->);
    (split; [exact Hkb|]);
    exists pre, k, post; repeat split; assumption.
Qed.

(** X15: without an Escape the loops never come back: on a simulated
    stream of ordinary key strokes from devices in range, each of the
    four loops ends up blocked in [wait], for every number of iterations,
    returning no device and raising nothing. *)
Theorem loops_block_without_escape (stream : list (Z * stroke)) (fuel : nat) :
  Forall (fun e => keyboard_passes e = true) stream ->
  capture_keyboard P true fuel (fresh stream) = None /\
  listen_to_keyboard P true fuel (fresh stream) = None /\
  capture_mouse P true fuel (fresh stream) = None /\
  listen_to_mouse P true fuel (fresh stream) = None.
Proof.
  intros Hk.
  assert (Hm : Forall (fun e => mouse_passes e = true) stream)
    by (eapply Forall_impl; [exact Hk|apply keyboard_passes_mouse_passes]).
  apply (forwarded_passes keyboard_verdict _ _ keyboard_forwarded_iff) in Hk.
  apply (forwarded_passes mouse_verdict _ _ mouse_forwarded_iff) in Hm.
  unfold capture_keyboard, listen_to_keyboard, capture_mouse, listen_to_mouse,
    requires_driver.
  rewrite !keyboard_loop_unwrapped, !mouse_loop_unwrapped.
  rewrite !(loop_blocks_when_all_forwarded keyboard_iteration keyboard_verdict _
              (keyboard_body_cases _)
              (fun snt => keyboard_iteration_blocks snt _) fuel _ _ Hk).
  rewrite !(loop_blocks_when_all_forwarded mouse_iteration mouse_verdict _
              (mouse_body_cases _)
              (fun snt => mouse_iteration_blocks snt _) fuel _ _ Hm).
  repeat split.
Qed.

(** X16: a failure inside the loop reaches the caller and the context is
    closed first: when the first stroke that is not handed back is an
    ordinary key stroke from a device out of range, each of the four
    loops raises the [InvalidDeviceError] of [send], having sent back the
    strokes before it and read none of the strokes after it. *)
Theorem loops_raise_after_closing (pre post : list (Z * stroke)) (d : Z)
    (k : KeyStroke) (fuel : nat) :
  Forall (fun e => keyboard_passes e = true) pre ->
  is_valid d = false ->
  code k <> 0x01 ->
  (length pre < fuel)%nat ->
  let stream := pre ++ (d, Key k) :: post in
  let raises_closed (loop : M context Z) :=
    exists c',
      loop (fresh stream) = Some (Raise InvalidDeviceError, c') /\
      sent c' = pre /\ pending c' = post /\ closed c' = true in
  raises_closed (capture_keyboard P true fuel) /\
  raises_closed (listen_to_keyboard P true fuel) /\
  raises_closed (capture_mouse P true fuel) /\
  raises_closed (listen_to_mouse P true fuel).
Proof.
  intros Hk Hd Hcode Hfuel stream raises_closed.
  assert (Hm : Forall (fun e => mouse_passes e = true) pre)
    by (eapply Forall_impl; [exact Hk|apply keyboard_passes_mouse_passes]).
  apply (forwarded_passes keyboard_verdict _ _ keyboard_forwarded_iff) in Hk.
  apply (forwarded_passes mouse_verdict _ _ mouse_forwarded_iff) in Hm.
  assert (Hnot_kb : is_keyboard d = false).
  { unfold is_valid in Hd. unfold is_keyboard.
    apply andb_false_iff in Hd as [Hd|Hd]; apply andb_false_iff.
    - left. exact Hd.
    - right. apply Z.leb_gt in Hd. apply Z.leb_gt. lia. }
  assert (Hkv : keyboard_verdict (d, Key k) = Failed InvalidDeviceError).
  { unfold keyboard_verdict, resend. cbn [fst snd].
    apply Z.eqb_neq in Hcode. rewrite Hcode, Hd. reflexivity. }
  assert (Hmv : mouse_verdict (d, Key k) = Failed InvalidDeviceError).
  { unfold mouse_verdict, resend. cbn [fst snd].
    rewrite Hnot_kb, Hd. reflexivity. }
  unfold raises_closed.
  repeat match goal with |- _ /\ _ => split end;
    unfold capture_keyboard, listen_to_keyboard, capture_mouse, listen_to_mouse,
      requires_driver, stream;
    rewrite ?keyboard_loop_unwrapped, ?mouse_loop_unwrapped;
    rewrite ?(loop_raises_on_failure keyboard_iteration keyboard_verdict _
                (keyboard_body_cases _) _ _ post Hkv pre [] fuel Hk Hfuel);
    rewrite ?(loop_raises_on_failure mouse_iteration mouse_verdict _
                (mouse_body_cases _) _ _ post Hmv pre [] fuel Hm Hfuel);
    eexists; repeat split.
Qed.

End LoopOutcomes.

Lemma keyboard_loops_return_only_on_escape_witness :
  exists pre k post,
    [(3, Key (mkKeyStroke 0x1E 0 0)); (4, Key (mkKeyStroke 0x01 0 0));
     (3, Key (mkKeyStroke 0x30 0 0))]
    = pre ++ (4, Key k) :: post /\
    code k = 0x01 /\
    Forall (fun e => Streams.keyboard_passes e = true) pre /\
    Mock.sent (Mock.mock_destroy
                 (Mock.mkContext [(3, Key (mkKeyStroke 0x30 0 0))]
                    [(3, Key (mkKeyStroke 0x1E 0 0))]
                    (Mock.filters
                       (Mock.mock_set_filter DeviceRegistry.is_keyboard
                          (FILTER_KEY_ALL sample_platform) (Mock.fresh [])))
                    false)) = pre /\
    Mock.pending (Mock.mock_destroy
                    (Mock.mkContext [(3, Key (mkKeyStroke 0x30 0 0))]
                       [(3, Key (mkKeyStroke 0x1E 0 0))]
                       (Mock.filters
                          (Mock.mock_set_filter DeviceRegistry.is_keyboard
                             (FILTER_KEY_ALL sample_platform) (Mock.fresh [])))
                       false)) = post /\
    true = true.
Proof.
  apply (keyboard_loops_return_only_on_escape sample_platform
           [(3, Key (mkKeyStroke 0x1E 0 0)); (4, Key (mkKeyStroke 0x01 0 0));
            (3, Key (mkKeyStroke 0x30 0 0))] 4 4).
  right. vm_compute. reflexivity.
Defined.

Lemma mouse_loops_return_only_on_escape_witness :
  DeviceRegistry.is_keyboard 2 = true.
Proof.
  refine (proj1 (mouse_loops_return_only_on_escape sample_platform
                   [(12, Mouse (mkMouseStroke 0x001 0 0 7 7 0));
                    (2, Key (mkKeyStroke 0x01 0 0))] 3 2 _ _)).
  left. vm_compute. reflexivity.
Defined.

Lemma loops_block_without_escape_witness :
  EventLoops.capture_mouse sample_platform true 9
    (Mock.fresh [(1, Key (mkKeyStroke 0x1E 0 0)); (1, Key (mkKeyStroke 0x1E 1 0))])
  = None.
Proof.
  refine (proj1 (proj2 (proj2
    (loops_block_without_escape sample_platform
       [(1, Key (mkKeyStroke 0x1E 0 0)); (1, Key (mkKeyStroke 0x1E 1 0))] 9 _)))).
  repeat constructor.
Defined.

Lemma loops_raise_after_closing_witness :
  exists c',
    EventLoops.listen_to_keyboard sample_platform true 2
      (Mock.fresh ([(1, Key (mkKeyStroke 0x1E 0 0))]
                   ++ (21, Key (mkKeyStroke 0x30 0 0))
                   :: [(1, Key (mkKeyStroke 0x01 0 0))]))
    = Some (Raise InvalidDeviceError, c') /\
    Mock.sent c' = [(1, Key (mkKeyStroke 0x1E 0 0))] /\
    Mock.pending c' = [(1, Key (mkKeyStroke 0x01 0 0))] /\
    Mock.closed c' = true.
Proof.
  refine (proj1 (proj2
    (loops_raise_after_closing sample_platform
       [(1, Key (mkKeyStroke 0x1E 0 0))] [(1, Key (mkKeyStroke 0x01 0 0))]
       21 (mkKeyStroke 0x30 0 0) 2 _ _ _ _))).
  - repeat constructor.
  - reflexivity.
  - discriminate.
  - simpl. lia.
Defined.

(** * The helper scripts *)

Section DigitKeys.
Import Scripts.

Lemma append_shift (pre : string) (c : ascii) (acc : string) :
  String.append pre (String c acc)
  = String.append (String.append pre (String c EmptyString)) acc.
Proof.
  induction pre as [|a pre IH]; [reflexivity|].
  change (String a (String.append pre (String c acc))
          = String a (String.append (String.append pre (String c EmptyString)) acc)).
  rewrite IH. reflexivity.
Qed.

Lemma str_digits_extends (fuel : nat) :
  forall (n : nat) (acc : string),
    exists pre, str_digits fuel n acc = String.append pre acc.
Proof.
  induction fuel as [|fuel IH]; intros n acc.
  - exists EmptyString. reflexivity.
  - cbn [str_digits]. destruct (n / 10)%nat as [|q].
    + exists (String (digit_char (n mod 10)) EmptyString). reflexivity.
    + destruct (IH (S q) (String (digit_char (n mod 10)) acc)) as [pre Hpre].
      exists (String.append pre (String (digit_char (n mod 10)) EmptyString)).
      rewrite Hpre. apply append_shift.
Qed.

(** From ten on, [str] has at least two characters. *)
Lemma str_two_digits (n : nat) :
  (10 <= n)%nat -> exists a b rest, str n = String a (String b rest).
Proof.
  intros Hn. unfold str. cbn [str_digits].
  destruct (n / 10)%nat as [|q] eqn:Hq.
  - apply Nat.div_small_iff in Hq; lia.
  - destruct n as [|n]; [lia|]. cbn [str_digits].
    set (c0 := digit_char (S n mod 10)).
    set (c1 := digit_char (S q mod 10)).
    destruct (S q / 10)%nat as [|q'].
    + exists c1, c0, EmptyString. reflexivity.
    + destruct (str_digits_extends n (S q') (String c1 (String c0 EmptyString)))
        as [pre Hpre].
      rewrite Hpre. destruct pre as [|a [|b pre]].
      * exists c1, c0, EmptyString. reflexivity.
      * exists a, c1, (String c0 EmptyString). reflexivity.
      * exists a, b, (String.append pre (String c1 (String c0 EmptyString))).
        reflexivity.
Qed.

Lemma no_long_num_attribute (a b : ascii) (rest : string) :
  (list_to_map ScanCode : gmap string Z)
    !! String.append "NUM" (String a (String b rest)) = None.
Proof.
  apply not_elem_of_list_to_map_1. cbn.
  rewrite !not_elem_of_cons. repeat split; try discriminate.
  apply not_elem_of_nil.
Qed.

Lemma num_key_cases (device : nat) (w : list event) :
  num_key device w
  = if (device <=? 9)%nat
    then Some (Ret (digit_scan_code device), w)
    else Some (Raise AttributeError, w).
Proof.
  destruct (Nat.leb_spec device 9) as [Hle|Hgt].
  - do 10 (destruct device as [|device]; [vm_compute; reflexivity|]). lia.
  - unfold num_key, scan_code.
    destruct (str_two_digits device ltac:(lia)) as (a & b & rest & ->).
    rewrite no_long_num_attribute. reflexivity.
Qed.

(** X17: the attribute the probe evaluates for a device number,
    ['ScanCode.NUM' + str(device)], exists exactly for the numbers 0 to
    9, where it is the scan code of that digit's key (11 for 0, the
    number plus one otherwise, so no two devices get the same key); from
    10 on the lookup raises [AttributeError]. *)
Theorem num_key_defined_for_digits (device other : nat) (w : list event) :
  num_key device w
  = (if (device <=? 9)%nat
     then Some (Ret (if (device =? 0)%nat then 11 else Z.of_nat device + 1), w)
     else Some (Raise AttributeError, w)) /\
  ((device <= 9)%nat /\ (other <= 9)%nat /\
   digit_scan_code device = digit_scan_code other -> device = other).
Proof.
  split; [apply num_key_cases|].
  unfold digit_scan_code. intros (Hd & Ho & Heq).
  destruct (Nat.eqb_spec device 0), (Nat.eqb_spec other 0); lia.
Qed.

End DigitKeys.

Section Iteration.
Import Scripts.
Context {A : Type}.

Lemma for_each_appends (body : A -> M (list event) unit)
    (events : A -> list event) (items : list A) :
  Forall (fun x => forall w, body x w = Some (Ret tt, w ++ events x)) items ->
  forall w, for_each items body w = Some (Ret tt, w ++ flat_map events items).
Proof.
  intros Hitems. induction Hitems as [|x items Hx _ IH]; intros w.
  - cbn. rewrite app_nil_r. reflexivity.
  - cbn [for_each flat_map]. rewrite (bind_returns _ _ _ _ _ (Hx w)).
    rewrite IH, <- app_assoc. reflexivity.
Qed.

Lemma for_each_stops (body : A -> M (list event) unit)
    (events : A -> list event) (done : list A) (x : A) (rest : list A)
    (e : exn) :
  Forall (fun x => forall w, body x w = Some (Ret tt, w ++ events x)) done ->
  (forall w, body x w = Some (Raise e, w)) ->
  forall w,
    for_each (done ++ x :: rest) body w
    = Some (Raise e, w ++ flat_map events done).
Proof.
  intros Hdone Hx. induction Hdone as [|y done Hy _ IH]; intros w.
  - cbn. rewrite app_nil_r. apply bind_raises, Hx.
  - cbn [for_each flat_map app]. rewrite (bind_returns _ _ _ _ _ (Hy w)).
    rewrite IH, <- app_assoc. reflexivity.
Qed.

End Iteration.

Section KeyboardProbe.
Import Scripts.

Variable valid_device : Z -> bool.

Lemma send_key_sends (device scancode : Z) (w : list event) :
  valid_device device = true ->
  send_key (Ret tt) valid_device device scancode w
  = Some (Ret tt, w ++ [ESend device (Key (mkKeyStroke scancode 0 0));
                        ESend device (Key (mkKeyStroke scancode 1 0))]).
Proof.
  intros Hv. unfold send_key, interception, checked_send. rewrite Hv.
  rewrite (bind_returns _ _ w w tt) by reflexivity.
  rewrite (bind_returns _ _ w w 0) by (vm_compute; reflexivity).
  rewrite (bind_returns _ _ w _ tt) by reflexivity.
  rewrite (bind_returns _ _ _ _ 1) by (vm_compute; reflexivity).
  unfold context_send. rewrite <- app_assoc. reflexivity.
Qed.

Lemma send_key_refused (device scancode : Z) (w : list event) :
  valid_device device = false ->
  send_key (Ret tt) valid_device device scancode w
  = Some (Raise InvalidDeviceError, w).
Proof.
  intros Hv. unfold send_key, interception, checked_send. rewrite Hv.
  rewrite (bind_returns _ _ w w tt) by reflexivity.
  rewrite (bind_returns _ _ w w 0) by (vm_compute; reflexivity).
  reflexivity.
Qed.

Lemma probe_step (device : nat) (w : list event) :
  (device <= 9)%nat ->
  valid_device (Z.of_nat device) = true ->
  (numkey <- num_key device ;;
   send_key (Ret tt) valid_device (Z.of_nat device) numkey)%act w
  = Some (Ret tt, w ++ probe_strokes device).
Proof.
  intros Hle Hv. pose proof (num_key_cases device w) as Hnum.
  apply Nat.leb_le in Hle. rewrite Hle in Hnum.
  rewrite (bind_returns _ _ _ _ _ Hnum). apply send_key_sends, Hv.
Qed.

Lemma probe_refused (device : nat) (w : list event) :
  (device <= 9)%nat ->
  valid_device (Z.of_nat device) = false ->
  (numkey <- num_key device ;;
   send_key (Ret tt) valid_device (Z.of_nat device) numkey)%act w
  = Some (Raise InvalidDeviceError, w).
Proof.
  intros Hle Hv. pose proof (num_key_cases device w) as Hnum.
  apply Nat.leb_le in Hle. rewrite Hle in Hnum.
  rewrite (bind_returns _ _ _ _ _ Hnum). apply send_key_refused, Hv.
Qed.

Lemma seq_below (start len : nat) :
  Forall (fun n => (n < start + len)%nat) (seq start len).
Proof.
  apply Forall_forall. intros n Hn. apply list_elem_of_In, in_seq in Hn. lia.
Qed.

(** The probe on a list of devices that begins with [k] numbers in
    order, all below 10 and all delivered to. *)
Lemma probe_prefix (k : nat) :
  (k <= 10)%nat ->
  (forall d, (d < k)%nat -> valid_device (Z.of_nat d) = true) ->
  Forall (fun device => forall w,
            (numkey <- num_key device ;;
             send_key (Ret tt) valid_device (Z.of_nat device) numkey)%act w
            = Some (Ret tt, w ++ probe_strokes device)) (seq 0 k).
Proof.
  intros Hk Hvalid. eapply Forall_impl; [apply seq_below|].
  intros n Hn w'. simpl in Hn. apply probe_step; [lia|apply Hvalid; lia].
Qed.

(** X18: the keyboard probe goes through the device numbers below
    [MAX_KEYBOARD] in increasing order and sends to each the key-down
    and key-up strokes of that number's digit key, as long as the
    context delivers to the device.  It stops at the first number below
    10 that the context refuses, with [InvalidDeviceError] and nothing
    sent for that number; with the valid range 1..20 of the spec this is
    number 0, so nothing is sent at all.  When the numbers below
    [MAX_KEYBOARD] are all delivered to, it completes if [MAX_KEYBOARD]
    is at most 10, and otherwise has probed 0 to 9 when the lookup for
    number 10 raises [AttributeError].  With the driver absent it fails
    on creating the first context, having sent nothing. *)
Theorem get_keyboard_probe (MAX_KEYBOARD : Z) (e : exn) (w : list event) :
  (MAX_KEYBOARD <= 10 ->
   (forall d, Z.of_nat d < MAX_KEYBOARD -> valid_device (Z.of_nat d) = true) ->
   get_keyboard (Ret tt) valid_device MAX_KEYBOARD w
   = Some (Ret tt, w ++ flat_map probe_strokes (range MAX_KEYBOARD))) /\
  (10 < MAX_KEYBOARD ->
   (forall d, (d < 10)%nat -> valid_device (Z.of_nat d) = true) ->
   get_keyboard (Ret tt) valid_device MAX_KEYBOARD w
   = Some (Raise AttributeError, w ++ flat_map probe_strokes (seq 0 10))) /\
  (forall d, (d < 10)%nat -> Z.of_nat d < MAX_KEYBOARD ->
   (forall d', (d' < d)%nat -> valid_device (Z.of_nat d') = true) ->
   valid_device (Z.of_nat d) = false ->
   get_keyboard (Ret tt) valid_device MAX_KEYBOARD w
   = Some (Raise InvalidDeviceError, w ++ flat_map probe_strokes (seq 0 d))) /\
  (0 < MAX_KEYBOARD ->
   get_keyboard (Ret tt) DeviceRegistry.is_valid MAX_KEYBOARD w
   = Some (Raise InvalidDeviceError, w)) /\
  get_keyboard (Raise e) valid_device MAX_KEYBOARD w
  = Some (if 0 <? MAX_KEYBOARD then Raise e else Ret tt, w).
Proof.
  unfold get_keyboard. split; [|split; [|split; [|split]]].
  - intros Hle Hvalid. apply for_each_appends. unfold range.
    apply probe_prefix; [lia|]. intros d Hd. apply Hvalid. lia.
  - intros Hgt Hvalid. unfold range.
    set (k := (Z.to_nat MAX_KEYBOARD - 11)%nat).
    replace (Z.to_nat MAX_KEYBOARD) with (10 + S k)%nat by lia.
    rewrite seq_app.
    change (seq (0 + 10) (S k)) with (10%nat :: seq 11 k).
    apply for_each_stops.
    + apply probe_prefix; [lia|exact Hvalid].
    + intros w'. apply bind_raises. rewrite num_key_cases. reflexivity.
  - intros d Hd Hmax Hbefore Hrefused. unfold range.
    set (k := (Z.to_nat MAX_KEYBOARD - S d)%nat).
    replace (Z.to_nat MAX_KEYBOARD) with (d + S k)%nat by lia.
    rewrite seq_app.
    change (seq (0 + d) (S k)) with (d :: seq (S d) k).
    apply for_each_stops.
    + apply probe_prefix; [lia|exact Hbefore].
    + intros w'. apply probe_refused; [lia|exact Hrefused].
  - intros Hpos. unfold range.
    destruct (Z.to_nat MAX_KEYBOARD) as [|n] eqn:Hn; [lia|].
    cbn [seq for_each]. apply bind_raises.
    pose proof (num_key_cases 0 w) as Hnum. cbn in Hnum.
    rewrite (bind_returns _ _ _ _ _ Hnum). reflexivity.
  - destruct (Z.ltb_spec 0 MAX_KEYBOARD) as [Hpos|Hnone].
    + unfold range. destruct (Z.to_nat MAX_KEYBOARD) as [|n] eqn:Hn; [lia|].
      cbn [seq for_each]. apply bind_raises.
      pose proof (num_key_cases 0 w) as Hnum. cbn in Hnum.
      rewrite (bind_returns _ _ _ _ _ Hnum). reflexivity.
    + unfold range. replace (Z.to_nat MAX_KEYBOARD) with 0%nat by lia.
      reflexivity.
Qed.

End KeyboardProbe.

Section MouseSearch.
Import Scripts.
Variable is_mouse : Z -> bool.

Lemma first_mouse_none (len start : nat) :
  (forall i, (start <= i < start + len)%nat -> is_mouse (Z.of_nat i) = false) ->
  first_mouse is_mouse (seq start len) = 0.
Proof.
  revert start. induction len as [|len IH]; intros start Hnone; [reflexivity|].
  cbn [seq first_mouse]. rewrite (Hnone start) by lia.
  apply IH. intros i Hi. apply Hnone. lia.
Qed.

Lemma first_mouse_least (len start j : nat) :
  (start <= j < start + len)%nat ->
  is_mouse (Z.of_nat j) = true ->
  exists m : nat,
    first_mouse is_mouse (seq start len) = Z.of_nat m /\
    (start <= m <= j)%nat /\
    is_mouse (Z.of_nat m) = true /\
    forall i, (start <= i < m)%nat -> is_mouse (Z.of_nat i) = false.
Proof.
  revert start. induction len as [|len IH]; intros start Hj Hmouse; [lia|].
  cbn [seq first_mouse]. destruct (is_mouse (Z.of_nat start)) eqn:Hstart.
  - exists start. repeat split; try lia; try assumption.
  - assert (Hne : j <> start) by (intros ->; congruence).
    destruct (IH (S start)) as (m & Hm & Hrange & Hmm & Hbefore);
      [lia|exact Hmouse|].
    exists m. split; [exact Hm|]. split; [lia|]. split; [exact Hmm|].
    intros i Hi. destruct (Nat.eq_dec i start) as [->|Hi'];
      [exact Hstart|apply Hbefore; lia].
Qed.

(** X19: the search loop of the click script yields the smallest device
    number below [MAX_DEVICES] that the predicate accepts.  Its result 0
    therefore stands both for "device 0 is the first mouse" and, since 0
    is the initial value, for "no device was accepted". *)
Theorem first_mouse_is_least (MAX_DEVICES j : Z) :
  0 <= j < MAX_DEVICES ->
  is_mouse j = true ->
  let m := first_mouse is_mouse (range MAX_DEVICES) in
  0 <= m <= j /\
  is_mouse m = true /\
  (forall i, 0 <= i < m -> is_mouse i = false) /\
  (m = 0 <-> is_mouse 0 = true).
Proof.
  intros Hj Hmouse m.
  destruct (first_mouse_least (Z.to_nat MAX_DEVICES) 0 (Z.to_nat j))
    as (k & Hk & Hrange & Hkm & Hbefore);
    [lia|rewrite Z2Nat.id by lia; exact Hmouse|].
  unfold m, range. rewrite Hk.
  split; [lia|]. split; [exact Hkm|]. split.
  - intros i Hi. rewrite <- (Z2Nat.id i) by lia. apply Hbefore. lia.
  - split.
    + intros Hzero. rewrite Hzero in Hkm. exact Hkm.
    + intros Hzero. destruct k as [|k]; [reflexivity|].
      pose proof (Hbefore 0%nat ltac:(lia)) as Hfirst.
      change (Z.of_nat 0) with 0 in Hfirst. congruence.
Qed.

End MouseSearch.

Lemma first_mouse_is_least_witness :
  let m := Scripts.first_mouse DeviceRegistry.is_mouse (Scripts.range 20) in
  0 <= m <= 14 /\
  DeviceRegistry.is_mouse m = true /\
  (forall i, 0 <= i < m -> DeviceRegistry.is_mouse i = false) /\
  (m = 0 <-> DeviceRegistry.is_mouse 0 = true).
Proof.
  apply (first_mouse_is_least DeviceRegistry.is_mouse 20 14); [lia|reflexivity].
Defined.

Section ClickScripts.
Import Scripts.
Variable is_mouse : Z -> bool.
Variable MAX_DEVICES : Z.
Variable W H : Z.
Variable DOWN UP ABSOLUTE : Z.

Lemma two_seconds_slept (w : list event) :
  Inputs.time_sleep (fun _ => None) 2 w = Some (Ret tt, w ++ [ESleep 2]).
Proof. reflexivity. Qed.

(** The two strokes of a click at pixel [(x, y)] on device [mouse]. *)
Lemma click_at_sends (mouse x y : Z) (w : list event) :
  click_at W H DOWN UP ABSOLUTE mouse x y w
  = if (W =? 0) || (H =? 0)
    then Some (Raise (OtherError "ZeroDivisionError"), w)
    else Some (Ret tt,
               w ++ [ESend mouse (Mouse (mkMouseStroke DOWN ABSOLUTE 0
                                           (Coordinates.scale x W)
                                           (Coordinates.scale y H) 0));
                     ESend mouse (Mouse (mkMouseStroke UP ABSOLUTE 0
                                           (Coordinates.scale x W)
                                           (Coordinates.scale y H) 0))]).
Proof.
  unfold click_at, scaled, bind, ret, raise, context_send.
  destruct (W =? 0); [reflexivity|]. destruct (H =? 0); [reflexivity|].
  cbn. rewrite <- app_assoc. reflexivity.
Qed.

(** X20: when device 0 is not accepted and some device below
    [MAX_DEVICES] is, the click script presses and releases the left
    button at the converted coordinates of pixel (23, 303), both strokes
    at the same point and both addressed to device 11, whichever device
    the search found; a zero screen dimension makes the conversion raise
    before anything is sent. *)
Theorem left_click_script_clicks_device_11 (j : Z) (w : list event) :
  is_mouse 0 = false ->
  0 < j < MAX_DEVICES ->
  is_mouse j = true ->
  left_click_script (Ret tt) is_mouse MAX_DEVICES W H DOWN UP ABSOLUTE w
  = if (W =? 0) || (H =? 0)
    then Some (Raise (OtherError "ZeroDivisionError"), w)
    else Some (Ret tt,
               w ++ [ESend 11 (Mouse (mkMouseStroke DOWN ABSOLUTE 0
                                        (Coordinates.scale 23 W)
                                        (Coordinates.scale 303 H) 0));
                     ESend 11 (Mouse (mkMouseStroke UP ABSOLUTE 0
                                        (Coordinates.scale 23 W)
                                        (Coordinates.scale 303 H) 0))]).
Proof.
  intros Hzero Hj Hmouse.
  destruct (first_mouse_least is_mouse (Z.to_nat MAX_DEVICES) 0 (Z.to_nat j))
    as (m & Hm & Hrange & Hmm & _);
    [lia|rewrite Z2Nat.id by lia; exact Hmouse|].
  assert (Hpos : (Z.of_nat m =? 0) = false).
  { apply Z.eqb_neq. intros Heq. rewrite Heq in Hmm. congruence. }
  unfold left_click_script, interception.
  rewrite (bind_returns _ _ w w tt) by reflexivity.
  unfold range. rewrite Hm, Hpos.
  rewrite (bind_returns _ _ w w tt) by reflexivity.
  apply click_at_sends.
Qed.

(** X21: the click script leaves through [exit(0)] without sending a
    stroke when the predicate accepts no device below [MAX_DEVICES], and
    also when it accepts device 0, whatever other devices it accepts;
    when the context cannot be created it fails with that error. *)
Theorem left_click_script_exits (e : exn) (w : list event) :
  is_mouse 0 = true \/
  (forall i, 0 <= i < MAX_DEVICES -> is_mouse i = false) ->
  left_click_script (Ret tt) is_mouse MAX_DEVICES W H DOWN UP ABSOLUTE w
  = Some (Raise (OtherError "SystemExit"), w) /\
  left_click_script (Raise e) is_mouse MAX_DEVICES W H DOWN UP ABSOLUTE w
  = Some (Raise e, w).
Proof.
  intros Hcase. split; [|reflexivity].
  assert (Hm : first_mouse is_mouse (range MAX_DEVICES) = 0).
  { destruct Hcase as [Hzero|Hnone].
    - unfold range. destruct (Z.to_nat MAX_DEVICES) as [|n]; [reflexivity|].
      cbn [seq first_mouse]. change (Z.of_nat 0) with 0. rewrite Hzero.
      reflexivity.
    - apply first_mouse_none. intros i Hi. apply Hnone. lia. }
  unfold left_click_script, interception.
  rewrite (bind_returns _ _ w w tt) by reflexivity.
  rewrite Hm. reflexivity.
Qed.

(** X22: on a screen with non-zero dimensions the mouse probe clicks
    every device below [MAX_DEVICES] that the predicate accepts, in
    increasing order and each exactly once: left button down and up at
    the converted coordinates of pixel (32, 32), then a sleep of two
    seconds.  When no device is accepted it leaves through [exit(0)]
    without sending anything. *)
Theorem get_mouse_script_clicks_each (w : list event) :
  W <> 0 -> H <> 0 ->
  let mice := List.filter (fun i => is_mouse (Z.of_nat i)) (range MAX_DEVICES) in
  let click (m : nat) :=
    [ESend (Z.of_nat m) (Mouse (mkMouseStroke DOWN ABSOLUTE 0
                                  (Coordinates.scale 32 W)
                                  (Coordinates.scale 32 H) 0));
     ESend (Z.of_nat m) (Mouse (mkMouseStroke UP ABSOLUTE 0
                                  (Coordinates.scale 32 W)
                                  (Coordinates.scale 32 H) 0));
     ESleep 2] in
  get_mouse_script (Ret tt) is_mouse MAX_DEVICES W H DOWN UP ABSOLUTE w
  = Some (match mice with
          | [] => Raise (OtherError "SystemExit")
          | _ :: _ => Ret tt
          end, w ++ flat_map click mice) /\
  (forall m, In m mice <->
             Z.of_nat m < MAX_DEVICES /\ is_mouse (Z.of_nat m) = true) /\
  List.NoDup mice.
Proof.
  intros HW HH mice click. split; [|split].
  - unfold get_mouse_script, interception.
    rewrite (bind_returns _ _ w w tt) by reflexivity.
    fold mice. destruct mice as [|m mice'] eqn:Hmice.
    + cbn. rewrite app_nil_r. reflexivity.
    + rewrite (bind_returns _ _ w w tt) by reflexivity.
      rewrite <- Hmice. apply for_each_appends.
      apply Forall_forall. intros x _ w'.
      pose proof (click_at_sends (Z.of_nat x) 32 32 w') as Hclick.
      apply Z.eqb_neq in HW. apply Z.eqb_neq in HH.
      rewrite HW, HH in Hclick. cbn [orb] in Hclick.
      rewrite (bind_returns _ _ _ _ _ Hclick).
      cbn beta. rewrite two_seconds_slept, <- app_assoc. reflexivity.
  - intros m. unfold mice, range. rewrite filter_In, in_seq. split.
    + intros [Hm Hacc]. split; [lia|exact Hacc].
    + intros [Hm Hacc]. split; [lia|exact Hacc].
  - unfold mice, range. apply List.NoDup_filter, seq_NoDup.
Qed.

End ClickScripts.

Lemma left_click_script_clicks_device_11_witness :
  Scripts.left_click_script (Ret tt) DeviceRegistry.is_mouse 20 1920 1080 1 2 1 []
  = Some (Ret tt,
          [] ++ [ESend 11 (Mouse (mkMouseStroke 1 1 0 785 18386 0));
                 ESend 11 (Mouse (mkMouseStroke 2 1 0 785 18386 0))]).
Proof.
  refine (left_click_script_clicks_device_11 DeviceRegistry.is_mouse 20
            1920 1080 1 2 1 14 [] _ _ _).
  - reflexivity.
  - lia.
  - reflexivity.
Defined.

Lemma left_click_script_exits_witness :
  Scripts.left_click_script (Ret tt) (fun i => i =? 0) 20 1920 1080 1 2 1 []
  = Some (Raise (OtherError "SystemExit"), []).
Proof.
  refine (proj1 (left_click_script_exits (fun i => i =? 0) 20 1920 1080 1 2 1
                   ValueError [] _)).
  left. reflexivity.
Defined.

Lemma get_mouse_script_clicks_each_witness :
  List.NoDup (List.filter (fun i => DeviceRegistry.is_mouse (Z.of_nat i))
           (Scripts.range 13)).
Proof.
  refine (proj2 (proj2 (get_mouse_script_clicks_each DeviceRegistry.is_mouse 13
                          1920 1080 1 2 1 [] _ _))); discriminate.
Defined.
